(** * Runtime-metrics collector: a shallow embedding of [main.go]

    The development follows the Go source: the [MetricsCollector] struct,
    the constructor [newMetricsCollector] with its chain of
    [if err != nil { return nil, err }], the sampling callback registered
    with the meter, and the route handlers of [main].

    The OpenTelemetry SDK and the Go runtime are outside the program.  The
    runtime is an input (one [Runtime] reading per sampling pass); the SDK is
    represented by the calls the program makes to it: the instruments created
    on a [Meter], and the [Event]s ([Observe], [Add], [Record]) a handler
    emits. *)

From Stdlib Require Import ZArith String List Bool Lia.
From Stdlib Require Import Floats.SpecFloat.
Import ListNotations.

Local Open Scope string_scope.
Local Open Scope list_scope.
Local Open Scope Z_scope.

(** ** Machine integers and floats *)

Module GoNum.

(** Go's fixed-width integers, as [Z] with the wrap-around written out. *)
Definition uint32_max : Z := 2 ^ 32 - 1.
Definition uint64_max : Z := 2 ^ 64 - 1.
Definition int64_min : Z := - 2 ^ 63.
Definition int64_max : Z := 2 ^ 63 - 1.

Definition is_uint32 (z : Z) : bool := (0 <=? z) && (z <=? uint32_max).
Definition is_uint64 (z : Z) : bool := (0 <=? z) && (z <=? uint64_max).
Definition is_int64 (z : Z) : bool := (int64_min <=? z) && (z <=? int64_max).

Definition wrap_uint32 (z : Z) : Z := z mod 2 ^ 32.
Definition wrap_uint64 (z : Z) : Z := z mod 2 ^ 64.
Definition wrap_int64 (z : Z) : Z := (z + 2 ^ 63) mod 2 ^ 64 - 2 ^ 63.

(** [a - b] on [uint32] and on [uint64] operands. *)
Definition sub_uint32 (a b : Z) : Z := wrap_uint32 (a - b).
Definition sub_uint64 (a b : Z) : Z := wrap_uint64 (a - b).
(** [a + b] on [int64] operands. *)
Definition add_int64 (a b : Z) : Z := wrap_int64 (a + b).

(** The conversion [int64(x)], for [x] a [uint64], a [uint32] or an [int]
    (64 bits wide on the targets of the program): the low 64 bits
    reinterpreted as a two's-complement number. *)
Definition int64_of_uint64 (x : Z) : Z := wrap_int64 x.
Definition int64_of_uint32 (x : Z) : Z := wrap_int64 x.
Definition int64_of_int (x : Z) : Z := wrap_int64 x.

(** IEEE 754 binary64. *)
Definition prec : Z := 53.
Definition emax : Z := 1024.
Definition float64 : Type := spec_float.

(** The conversion [float64(x)] for an unsigned integer [x]: round to
    nearest, ties to even. *)
Definition float64_of_uint64 (x : Z) : float64 :=
  binary_normalize prec emax x 0 false.

(** The constant [1e9]. *)
Definition f1e9 : float64 := binary_normalize prec emax 1000000000 0 false.
Definition fzero : float64 := S754_zero false.

Definition fdiv (x y : float64) : float64 := SFdiv prec emax x y.
Definition fleb (x y : float64) : bool := SFleb x y.
Definition fltb (x y : float64) : bool := SFltb x y.

End GoNum.
Import GoNum.

(** ** The Go runtime, as read by the program *)

(** The fields of [runtime.MemStats] the program reads. *)
Record MemStats : Type := {
  HeapAlloc : Z;        (* uint64 *)
  HeapIdle : Z;         (* uint64 *)
  HeapInuse : Z;        (* uint64 *)
  HeapObjects : Z;      (* uint64 *)
  HeapReleased : Z;     (* uint64 *)
  HeapSys : Z;          (* uint64 *)
  StackInuse : Z;       (* uint64 *)
  StackSys : Z;         (* uint64 *)
  GCSys : Z;            (* uint64 *)
  LastGC : Z;           (* uint64, nanoseconds since 1970 *)
  NumGC : Z;            (* uint32 *)
  GCCPUFraction : float64
}.

(** What the runtime answers during one sampling pass.  [NumThreads] is the
    number of OS threads the runtime has created; it is part of the runtime's
    state although the callback never asks for it. *)
Record Runtime : Type := {
  ReadMemStats : MemStats;
  NumGoroutine : Z;     (* int *)
  NumCPU : Z;           (* int *)
  NumThreads : Z        (* int *)
}.

Definition wf_MemStats (s : MemStats) : bool :=
  is_uint64 (HeapAlloc s) && is_uint64 (HeapIdle s) && is_uint64 (HeapInuse s)
  && is_uint64 (HeapObjects s) && is_uint64 (HeapReleased s)
  && is_uint64 (HeapSys s) && is_uint64 (StackInuse s)
  && is_uint64 (StackSys s) && is_uint64 (GCSys s)
  && is_uint64 (LastGC s) && is_uint32 (NumGC s).

Definition wf_Runtime (rt : Runtime) : bool :=
  wf_MemStats (ReadMemStats rt)
  && is_int64 (NumGoroutine rt) && is_int64 (NumCPU rt)
  && is_int64 (NumThreads rt).

(** ** Instruments and the meter *)

Inductive InstrumentKind : Type :=
| KInt64ObservableGauge
| KFloat64ObservableGauge
| KFloat64Histogram
| KInt64Counter.

Record Instrument : Type := {
  inst_name : string;
  inst_kind : InstrumentKind;
  inst_description : string
}.

Definition InstrumentKind_eqb (a b : InstrumentKind) : bool :=
  match a, b with
  | KInt64ObservableGauge, KInt64ObservableGauge
  | KFloat64ObservableGauge, KFloat64ObservableGauge
  | KFloat64Histogram, KFloat64Histogram
  | KInt64Counter, KInt64Counter => true
  | _, _ => false
  end.

(** Two handles denote the same instrument when name and kind agree. *)
Definition Instrument_eqb (a b : Instrument) : bool :=
  String.eqb (inst_name a) (inst_name b)
  && InstrumentKind_eqb (inst_kind a) (inst_kind b).

Inductive InstrumentOption : Type :=
| WithDescription (d : string).

Inductive error : Type :=
| ErrExporter                       (* prometheus.New failed *)
| ErrInstrument (i : Instrument)    (* the meter rejected this instrument *)
| ErrCallback                       (* the meter rejected the callback *)
| ErrListen.                        (* r.Run returned *)

(** What a meter holds: the instruments created on it, in creation order,
    and for each registered callback the instruments it observes. *)
Record Meter : Type := {
  instruments : list Instrument;
  callbacks : list (list Instrument)
}.

Definition empty_meter : Meter := {| instruments := []; callbacks := [] |}.

Definition add_instrument (i : Instrument) (m : Meter) : Meter :=
  {| instruments := instruments m ++ [i]; callbacks := callbacks m |}.

Definition add_callback (insts : list Instrument) (m : Meter) : Meter :=
  {| instruments := instruments m; callbacks := callbacks m ++ [insts] |}.

Inductive result (A : Type) : Type :=
| Ok (a : A)
| Err (e : error).
Arguments Ok {A} a.
Arguments Err {A} e.

(** ** The collector *)

Record MetricsCollector : Type := {
  (* Memory Metrics *)
  heapAlloc : Instrument;
  heapIdle : Instrument;
  heapInUse : Instrument;
  heapObjects : Instrument;
  heapReleased : Instrument;
  heapSys : Instrument;
  gcPauseDuration : Instrument;
  gcCount : Instrument;
  gcForced : Instrument;
  (* Goroutine Metrics *)
  activeGoroutines : Instrument;
  totalGoroutines : Instrument;
  (* GC Metrics *)
  gcCPUFraction : Instrument;
  gcSys : Instrument;
  (* CPU Metrics *)
  goroutineExecTime : Instrument;
  gcTime : Instrument;
  systemTime : Instrument;
  (* Thread Metrics *)
  osThreads : Instrument;
  (* Stack Metrics *)
  stackInUse : Instrument;
  stackSys : Instrument;
  (* Mutex Metrics *)
  mutexWaitTime : Instrument;
  mutexLockCount : Instrument;
  (* Runtime stats *)
  lastPause : Z;        (* uint64 *)
  lastGC : Z            (* uint32 *)
}.

(** [mc.lastGC = v] *)
Definition set_lastGC (v : Z) (mc : MetricsCollector) : MetricsCollector :=
  {| heapAlloc := heapAlloc mc; heapIdle := heapIdle mc;
     heapInUse := heapInUse mc; heapObjects := heapObjects mc;
     heapReleased := heapReleased mc; heapSys := heapSys mc;
     gcPauseDuration := gcPauseDuration mc; gcCount := gcCount mc;
     gcForced := gcForced mc; activeGoroutines := activeGoroutines mc;
     totalGoroutines := totalGoroutines mc; gcCPUFraction := gcCPUFraction mc;
     gcSys := gcSys mc; goroutineExecTime := goroutineExecTime mc;
     gcTime := gcTime mc; systemTime := systemTime mc;
     osThreads := osThreads mc; stackInUse := stackInUse mc;
     stackSys := stackSys mc; mutexWaitTime := mutexWaitTime mc;
     mutexLockCount := mutexLockCount mc;
     lastPause := lastPause mc; lastGC := v |}.

(** [mc.lastPause = v] *)
Definition set_lastPause (v : Z) (mc : MetricsCollector) : MetricsCollector :=
  {| heapAlloc := heapAlloc mc; heapIdle := heapIdle mc;
     heapInUse := heapInUse mc; heapObjects := heapObjects mc;
     heapReleased := heapReleased mc; heapSys := heapSys mc;
     gcPauseDuration := gcPauseDuration mc; gcCount := gcCount mc;
     gcForced := gcForced mc; activeGoroutines := activeGoroutines mc;
     totalGoroutines := totalGoroutines mc; gcCPUFraction := gcCPUFraction mc;
     gcSys := gcSys mc; goroutineExecTime := goroutineExecTime mc;
     gcTime := gcTime mc; systemTime := systemTime mc;
     osThreads := osThreads mc; stackInUse := stackInUse mc;
     stackSys := stackSys mc; mutexWaitTime := mutexWaitTime mc;
     mutexLockCount := mutexLockCount mc;
     lastPause := v; lastGC := lastGC mc |}.

(** ** What a handler does to the SDK *)

Inductive Value : Type :=
| Int64 (z : Z)
| Float64 (f : float64).

Inductive Event : Type :=
| EvObserve (i : Instrument) (v : Value)     (* o.ObserveInt64 / o.ObserveFloat64 *)
| EvAdd (i : Instrument) (v : Z)             (* counter.Add *)
| EvRecord (i : Instrument) (v : float64).   (* histogram.Record *)

(** A computation over the collector that emits events in program order. *)
Definition Cb (A : Type) : Type :=
  MetricsCollector -> A * MetricsCollector * list Event.

Module CbMonad.
Definition ret {A} (a : A) : Cb A := fun mc => (a, mc, []).
Definition bind {A B} (c : Cb A) (k : A -> Cb B) : Cb B :=
  fun mc =>
    let '(a, mc1, ev1) := c mc in
    let '(b, mc2, ev2) := k a mc1 in
    (b, mc2, ev1 ++ ev2).
Definition get : Cb MetricsCollector := fun mc => (mc, mc, []).
Definition modify (f : MetricsCollector -> MetricsCollector) : Cb unit :=
  fun mc => (tt, f mc, []).
Definition emit (e : Event) : Cb unit := fun mc => (tt, mc, [e]).
Definition when (b : bool) (c : Cb unit) : Cb unit :=
  if b then c else ret tt.
End CbMonad.

Declare Scope cb_scope.
Delimit Scope cb_scope with cb.
Notation "x <- c ;; k" := (CbMonad.bind c (fun x => k))
  (at level 61, c at next level, right associativity) : cb_scope.
Notation "c ;; k" := (CbMonad.bind c (fun _ => k))
  (at level 61, right associativity) : cb_scope.

Definition ObserveInt64 (i : Instrument) (v : Z) : Cb unit :=
  CbMonad.emit (EvObserve i (Int64 v)).
Definition ObserveFloat64 (i : Instrument) (v : float64) : Cb unit :=
  CbMonad.emit (EvObserve i (Float64 v)).
Definition Add (i : Instrument) (v : Z) : Cb unit :=
  CbMonad.emit (EvAdd i v).
Definition Record_ (i : Instrument) (v : float64) : Cb unit :=
  CbMonad.emit (EvRecord i v).

(** The function literal passed to [meter.RegisterCallback]. *)
Definition callback (rt : Runtime) : Cb (option error) :=
  (let stats := ReadMemStats rt in
   mc <- CbMonad.get ;;
   ObserveInt64 (heapAlloc mc) (int64_of_uint64 (HeapAlloc stats)) ;;
   ObserveInt64 (heapIdle mc) (int64_of_uint64 (HeapIdle stats)) ;;
   ObserveInt64 (heapInUse mc) (int64_of_uint64 (HeapInuse stats)) ;;
   ObserveInt64 (heapObjects mc) (int64_of_uint64 (HeapObjects stats)) ;;
   ObserveInt64 (heapReleased mc) (int64_of_uint64 (HeapReleased stats)) ;;
   ObserveInt64 (heapSys mc) (int64_of_uint64 (HeapSys stats)) ;;
   ObserveInt64 (activeGoroutines mc) (int64_of_int (NumGoroutine rt)) ;;
   ObserveFloat64 (gcCPUFraction mc) (GCCPUFraction stats) ;;
   ObserveInt64 (gcSys mc) (int64_of_uint64 (GCSys stats)) ;;
   ObserveInt64 (osThreads mc) (int64_of_int (NumCPU rt)) ;;
   ObserveInt64 (stackInUse mc) (int64_of_uint64 (StackInuse stats)) ;;
   ObserveInt64 (stackSys mc) (int64_of_uint64 (StackSys stats)) ;;
   (* Update GC metrics *)
   CbMonad.when (lastGC mc <? NumGC stats)
     (let delta := sub_uint32 (NumGC stats) (lastGC mc) in
      Add (gcCount mc) (int64_of_uint32 delta) ;;
      CbMonad.when (lastPause mc <? LastGC stats)
        (let pauseNs := sub_uint64 (LastGC stats) (lastPause mc) in
         (Record_ (gcPauseDuration mc)
            (fdiv (float64_of_uint64 pauseNs) f1e9))) ;;
      CbMonad.modify (set_lastGC (NumGC stats)) ;;
      CbMonad.modify (set_lastPause (LastGC stats))) ;;
   CbMonad.ret None)%cb.

(** ** The process *)

(** A running process: the collector the handlers close over, and the
    calls made to the SDK since startup, oldest first. *)
Record Process : Type := {
  collector : MetricsCollector;
  sdk_log : list Event
}.

(** How [main] ends up: [log.Fatal], or inside [r.Run] with the routes
    installed.  [ServingNil] is [r.Run] with a nil collector. *)
Inductive Outcome : Type :=
| Fatal (e : error)
| Serving (m : Meter) (p : Process)
| ServingNil (m : Meter).

(** ** The constructor *)

Section Startup.

(** The instrumentation backend decides, from what the meter already
    holds, whether it creates an instrument and whether it registers a
    callback; [prometheus_New] is the outcome of creating the exporter and
    [Run] the error, if any, with which the HTTP server fails to start. *)
Variable accept : Meter -> Instrument -> bool.
Variable accept_callback : Meter -> list Instrument -> bool.
Variable prometheus_New : option error.
Variable Run : option error.

Definition create (k : InstrumentKind) (n : string) (o : InstrumentOption)
  (m : Meter) : Meter * result Instrument :=
  let 'WithDescription d := o in
  let i := {| inst_name := n; inst_kind := k; inst_description := d |} in
  if accept m i
  then (add_instrument i m, Ok i)
  else (m, Err (ErrInstrument i)).

Definition Int64ObservableGauge := create KInt64ObservableGauge.
Definition Float64ObservableGauge := create KFloat64ObservableGauge.
Definition Float64Histogram := create KFloat64Histogram.
Definition Int64Counter := create KInt64Counter.

Definition RegisterCallback (insts : list Instrument) (m : Meter)
  : Meter * result unit :=
  if accept_callback m insts
  then (add_callback insts m, Ok tt)
  else (m, Err ErrCallback).

(** [x, err = c; if err != nil { return nil, err }; k] *)
Notation "x <-? c ;; k" :=
  (fun m : Meter =>
     match c m with
     | (m', Ok x) => k m'
     | (m', Err e) => (m', (@None MetricsCollector, Some e))
     end)
  (at level 61, c at next level, right associativity).

Definition newMetricsCollector
  : Meter -> Meter * (option MetricsCollector * option error) :=
  (* Memory Metrics *)
  heapAlloc_ <-? Int64ObservableGauge "go_memstats_heap_alloc_bytes"
    (WithDescription "Current bytes allocated to heap objects") ;;
  heapIdle_ <-? Int64ObservableGauge "go_memstats_heap_idle_bytes"
    (WithDescription "Bytes in idle (unused) spans") ;;
  heapInUse_ <-? Int64ObservableGauge "go_memstats_heap_inuse_bytes"
    (WithDescription "Bytes in in-use spans") ;;
  heapObjects_ <-? Int64ObservableGauge "go_memstats_heap_objects"
    (WithDescription "Number of allocated heap objects") ;;
  heapReleased_ <-? Int64ObservableGauge "go_memstats_heap_released_bytes"
    (WithDescription "Bytes released to the OS") ;;
  heapSys_ <-? Int64ObservableGauge "go_memstats_heap_sys_bytes"
    (WithDescription "Bytes obtained from system for heap") ;;
  gcPauseDuration_ <-? Float64Histogram "go_gc_duration_seconds"
    (WithDescription "GC pause duration") ;;
  gcCount_ <-? Int64Counter "go_gc_cycles_total"
    (WithDescription "Number of completed GC cycles") ;;
  gcForced_ <-? Int64Counter "go_gc_forced_total"
    (WithDescription "Number of forced GC cycles") ;;
  (* Goroutine Metrics *)
  activeGoroutines_ <-? Int64ObservableGauge "go_goroutines"
    (WithDescription "Number of goroutines that currently exist") ;;
  totalGoroutines_ <-? Int64Counter "go_goroutines_created_total"
    (WithDescription "Total number of goroutines created") ;;
  (* GC Metrics *)
  gcCPUFraction_ <-? Float64ObservableGauge "go_gc_cpu_fraction"
    (WithDescription "Fraction of CPU time used by GC") ;;
  gcSys_ <-? Int64ObservableGauge "go_memstats_gc_sys_bytes"
    (WithDescription "Bytes used for garbage collection system metadata") ;;
  (* CPU Metrics *)
  goroutineExecTime_ <-? Int64Counter "go_runtime_cpu_goroutine_seconds_total"
    (WithDescription "Total user and system CPU time spent in goroutines") ;;
  gcTime_ <-? Int64Counter "go_gc_cpu_seconds_total"
    (WithDescription "Total CPU time spent in GC") ;;
  systemTime_ <-? Int64Counter "go_runtime_sys_seconds_total"
    (WithDescription "Total system CPU time") ;;
  (* Thread Metrics *)
  osThreads_ <-? Int64ObservableGauge "go_threads"
    (WithDescription "Number of OS threads created") ;;
  (* Stack Metrics *)
  stackInUse_ <-? Int64ObservableGauge "go_memstats_stack_inuse_bytes"
    (WithDescription "Bytes used by stack allocator") ;;
  stackSys_ <-? Int64ObservableGauge "go_memstats_stack_sys_bytes"
    (WithDescription "Bytes obtained from system for stack allocator") ;;
  (* Mutex Metrics *)
  mutexWaitTime_ <-? Int64Counter "go_mutex_wait_seconds_total"
    (WithDescription "Total time spent waiting for mutex locks") ;;
  mutexLockCount_ <-? Int64Counter "go_mutex_lock_total"
    (WithDescription "Total number of mutex lock operations") ;;
  (fun m : Meter =>
     let mc :=
       {| heapAlloc := heapAlloc_; heapIdle := heapIdle_;
          heapInUse := heapInUse_; heapObjects := heapObjects_;
          heapReleased := heapReleased_; heapSys := heapSys_;
          gcPauseDuration := gcPauseDuration_; gcCount := gcCount_;
          gcForced := gcForced_; activeGoroutines := activeGoroutines_;
          totalGoroutines := totalGoroutines_;
          gcCPUFraction := gcCPUFraction_; gcSys := gcSys_;
          goroutineExecTime := goroutineExecTime_; gcTime := gcTime_;
          systemTime := systemTime_; osThreads := osThreads_;
          stackInUse := stackInUse_; stackSys := stackSys_;
          mutexWaitTime := mutexWaitTime_;
          mutexLockCount := mutexLockCount_;
          lastPause := 0; lastGC := 0 |} in
     (* Register callbacks for observable metrics *)
     match RegisterCallback
             [heapAlloc mc; heapIdle mc; heapInUse mc; heapObjects mc;
              heapReleased mc; heapSys mc; activeGoroutines mc;
              gcCPUFraction mc; gcSys mc; osThreads mc; stackInUse mc;
              stackSys mc] m with
     | (m', Ok _) => (m', (Some mc, None))
     | (m', Err e) => (m', (Some mc, Some e))
     end).

Definition main : Outcome :=
  match prometheus_New with
  | Some e => Fatal e
  | None =>
      let meter := empty_meter in
      let '(meter, (collector_, err)) := newMetricsCollector meter in
      match err with
      | Some e => Fatal e
      | None =>
          match Run with
          | Some e => Fatal e
          | None =>
              match collector_ with
              | Some c => Serving meter {| collector := c; sdk_log := [] |}
              | None => ServingNil meter
              end
          end
      end
  end.

End Startup.

(** ** The routes *)

(** A request, with what the handler reads from outside the program while
    it serves it: the runtime's answers for a scrape, and for
    [/simulate-mutex] the value of [time.Since(start).Nanoseconds()]. *)
Inductive Request : Type :=
| GetAllocateMemory
| GetSpawnGoroutines
| GetSimulateMutex (elapsed : Z)
| GetMetrics (rt : Runtime).

Inductive Body : Type :=
| Json (message : string)
| Collected (observations : list (Instrument * Value)).

Record Response : Type := {
  status : Z;
  body : Body
}.

Definition StatusOK : Z := 200.

(** [/allocate-memory]: the buffer is dropped at once; no instrument is
    touched. *)
Definition allocate_memory : Cb string :=
  CbMonad.ret "Allocated memory".

(** The ten goroutines of [/spawn-goroutines], each doing
    [collector.totalGoroutines.Add(ctx, 1)], once all have run. *)
Fixpoint spawn_loop (n : nat) : Cb unit :=
  match n with
  | O => CbMonad.ret tt
  | S n' =>
      (mc <- CbMonad.get ;;
       Add (totalGoroutines mc) 1 ;;
       spawn_loop n')%cb
  end.

Definition spawn_goroutines : Cb string :=
  (spawn_loop 10 ;;
   CbMonad.ret "Spawned goroutines")%cb.

Definition simulate_mutex (elapsed : Z) : Cb string :=
  (mc <- CbMonad.get ;;
   Add (mutexWaitTime mc) elapsed ;;
   Add (mutexLockCount mc) 1 ;;
   CbMonad.ret "Simulated mutex operation")%cb.

(** The observations of a list of events, in order. *)
Fixpoint observations_of (evs : list Event) : list (Instrument * Value) :=
  match evs with
  | [] => []
  | EvObserve i v :: evs' => (i, v) :: observations_of evs'
  | _ :: evs' => observations_of evs'
  end.

(** [/metrics]: the collection runs the registered callback once. *)
Definition metrics (rt : Runtime) : Cb (option error) := callback rt.

(** One request served by a running process. *)
Definition handle (r : Request) (p : Process) : Process * Response :=
  match r with
  | GetAllocateMemory =>
      let '(msg, mc, evs) := allocate_memory (collector p) in
      ({| collector := mc; sdk_log := sdk_log p ++ evs |},
       {| status := StatusOK; body := Json msg |})
  | GetSpawnGoroutines =>
      let '(msg, mc, evs) := spawn_goroutines (collector p) in
      ({| collector := mc; sdk_log := sdk_log p ++ evs |},
       {| status := StatusOK; body := Json msg |})
  | GetSimulateMutex elapsed =>
      let '(msg, mc, evs) := simulate_mutex elapsed (collector p) in
      ({| collector := mc; sdk_log := sdk_log p ++ evs |},
       {| status := StatusOK; body := Json msg |})
  | GetMetrics rt =>
      let '(_, mc, evs) := metrics rt (collector p) in
      ({| collector := mc; sdk_log := sdk_log p ++ evs |},
       {| status := StatusOK; body := Collected (observations_of evs) |})
  end.

(** Requests served one after the other. *)
Fixpoint run (rs : list Request) (p : Process) : Process :=
  match rs with
  | [] => p
  | r :: rs' => run rs' (fst (handle r p))
  end.

(** The events one request emits. *)
Definition events_of (r : Request) (p : Process) : list Event :=
  match r with
  | GetAllocateMemory => snd (allocate_memory (collector p))
  | GetSpawnGoroutines => snd (spawn_goroutines (collector p))
  | GetSimulateMutex elapsed => snd (simulate_mutex elapsed (collector p))
  | GetMetrics rt => snd (metrics rt (collector p))
  end.

Definition wf_Request (r : Request) : bool :=
  match r with
  | GetSimulateMutex elapsed => (0 <=? elapsed) && (elapsed <=? int64_max)
  | GetMetrics rt => wf_Runtime rt
  | _ => true
  end.

(** ** Reading the SDK's aggregates off the log *)

(** The values added to counter [i], oldest first. *)
Fixpoint added (i : Instrument) (evs : list Event) : list Z :=
  match evs with
  | [] => []
  | EvAdd j v :: evs' =>
      if Instrument_eqb j i then v :: added i evs' else added i evs'
  | _ :: evs' => added i evs'
  end.

(** The values recorded into histogram [i], oldest first. *)
Fixpoint recorded (i : Instrument) (evs : list Event) : list float64 :=
  match evs with
  | [] => []
  | EvRecord j v :: evs' =>
      if Instrument_eqb j i then v :: recorded i evs' else recorded i evs'
  | _ :: evs' => recorded i evs'
  end.

(** The values observed for gauge [i], oldest first. *)
Fixpoint observed (i : Instrument) (obs : list (Instrument * Value))
  : list Value :=
  match obs with
  | [] => []
  | (j, v) :: obs' =>
      if Instrument_eqb j i then v :: observed i obs' else observed i obs'
  end.

(** The cumulative sum an [int64] counter reports: the values added so far,
    summed in [int64]. *)
Definition counter_sum (vs : list Z) : Z := fold_left add_int64 vs 0.

Definition counter_total (i : Instrument) (p : Process) : Z :=
  counter_sum (added i (sdk_log p)).

(** ** Startup with a backend that accepts everything *)

Definition accept_all (_ : Meter) (_ : Instrument) : bool := true.
Definition accept_all_callbacks (_ : Meter) (_ : list Instrument) : bool := true.

(** The meter and the collector [newMetricsCollector] leaves behind when
    nothing is rejected. *)
Definition started : Meter * (option MetricsCollector * option error) :=
  Eval cbv in newMetricsCollector accept_all accept_all_callbacks empty_meter.

Definition meter0 : Meter := fst started.

Definition collector0 : MetricsCollector :=
  Eval cbv in
    match fst (snd started) as o
          return match o with Some _ => MetricsCollector | None => unit end
    with
    | Some c => c
    | None => tt
    end.

Definition process0 : Process := {| collector := collector0; sdk_log := [] |}.

(** The collector of a running process: the handles never change, only the
    two bookkeeping fields do. *)
Definition with_state (gc pause : Z) : MetricsCollector :=
  set_lastPause pause (set_lastGC gc collector0).

(** The twelve observations of a sampling pass, in program order. *)
Definition pass_observations (rt : Runtime) (mc : MetricsCollector)
  : list Event :=
  let stats := ReadMemStats rt in
  [ EvObserve (heapAlloc mc) (Int64 (int64_of_uint64 (HeapAlloc stats)));
    EvObserve (heapIdle mc) (Int64 (int64_of_uint64 (HeapIdle stats)));
    EvObserve (heapInUse mc) (Int64 (int64_of_uint64 (HeapInuse stats)));
    EvObserve (heapObjects mc) (Int64 (int64_of_uint64 (HeapObjects stats)));
    EvObserve (heapReleased mc) (Int64 (int64_of_uint64 (HeapReleased stats)));
    EvObserve (heapSys mc) (Int64 (int64_of_uint64 (HeapSys stats)));
    EvObserve (activeGoroutines mc) (Int64 (int64_of_int (NumGoroutine rt)));
    EvObserve (gcCPUFraction mc) (Float64 (GCCPUFraction stats));
    EvObserve (gcSys mc) (Int64 (int64_of_uint64 (GCSys stats)));
    EvObserve (osThreads mc) (Int64 (int64_of_int (NumCPU rt)));
    EvObserve (stackInUse mc) (Int64 (int64_of_uint64 (StackInuse stats)));
    EvObserve (stackSys mc) (Int64 (int64_of_uint64 (StackSys stats))) ].

(** The counter and histogram calls of a sampling pass. *)
Definition pass_gc_events (rt : Runtime) (mc : MetricsCollector)
  : list Event :=
  let stats := ReadMemStats rt in
  if lastGC mc <? NumGC stats
  then EvAdd (gcCount mc)
         (int64_of_uint32 (sub_uint32 (NumGC stats) (lastGC mc)))
       :: (if lastPause mc <? LastGC stats
           then [EvRecord (gcPauseDuration mc)
                   (fdiv (float64_of_uint64
                            (sub_uint64 (LastGC stats) (lastPause mc)))
                      f1e9)]
           else [])
  else [].

(** What a scrape publishes for gauge [i]. *)
Definition published (i : Instrument) (r : Response) : list Value :=
  match body r with
  | Collected obs => observed i obs
  | Json _ => []
  end.

(** The handles of a process are those made at startup. *)
Definition handles_kept (p : Process) : Prop :=
  collector p = with_state (lastGC (collector p)) (lastPause (collector p)).

(** The bookkeeping fields stay within their types, and [lastGC] is what
    has been added to the cycle counter so far. *)
Definition Inv (p : Process) : Prop :=
  handles_kept p
  /\ is_uint32 (lastGC (collector p)) = true
  /\ is_uint64 (lastPause (collector p)) = true
  /\ counter_total (gcCount collector0) p = lastGC (collector p).

(** A float that is zero, positive or plus infinity. *)
Definition float_nonneg (f : float64) : bool := fleb fzero f.

(** ** Startup, instrument by instrument *)

(** The instruments the constructor asks for, in order. *)
Definition intended : list Instrument := instruments meter0.

(** The observable instruments handed to [RegisterCallback]. *)
Definition observable : list Instrument :=
  [heapAlloc collector0; heapIdle collector0; heapInUse collector0;
   heapObjects collector0; heapReleased collector0; heapSys collector0;
   activeGoroutines collector0; gcCPUFraction collector0; gcSys collector0;
   osThreads collector0; stackInUse collector0; stackSys collector0].

Definition add_instruments (l : list Instrument) (m : Meter) : Meter :=
  fold_left (fun m' i => add_instrument i m') l m.

(** The backend accepts each instrument of [l] when its turn comes. *)
Fixpoint accepted_in_turn (accept : Meter -> Instrument -> bool)
  (m : Meter) (l : list Instrument) : bool :=
  match l with
  | [] => true
  | i :: l' => accept m i && accepted_in_turn accept (add_instrument i m) l'
  end.

(** Creating the instruments of [l] one after the other, stopping at the
    first rejection. *)
Fixpoint create_all (accept : Meter -> Instrument -> bool)
  (l : list Instrument) (m : Meter) : Meter * option error :=
  match l with
  | [] => (m, None)
  | i :: l' =>
      if accept m i then create_all accept l' (add_instrument i m)
      else (m, Some (ErrInstrument i))
  end.

(** ** Table 4.1 of the specification *)






Definition is_counter (i : Instrument) : bool :=
  InstrumentKind_eqb (inst_kind i) KInt64Counter.


(** ** Sample inputs *)

(** A process that has run one collection cycle which ended at
    1.7e18 ns after the epoch, on a machine with four CPUs, with seven OS
    threads and five goroutines. *)
Definition stats_one_gc : MemStats :=
  {| HeapAlloc := 1048576; HeapIdle := 65536; HeapInuse := 2097152;
     HeapObjects := 4096; HeapReleased := 0; HeapSys := 4194304;
     StackInuse := 32768; StackSys := 32768; GCSys := 131072;
     LastGC := 1700000000000000000; NumGC := 1; GCCPUFraction := fzero |}.

Definition rt_one_gc : Runtime :=
  {| ReadMemStats := stats_one_gc; NumGoroutine := 5; NumCPU := 4;
     NumThreads := 7 |}.

(** The same with a second cycle, 2.5 s after the first. *)
Definition rt_two_gc : Runtime :=
  {| ReadMemStats :=
       {| HeapAlloc := 1048576; HeapIdle := 65536; HeapInuse := 2097152;
          HeapObjects := 4096; HeapReleased := 0; HeapSys := 4194304;
          StackInuse := 32768; StackSys := 32768; GCSys := 131072;
          LastGC := 1700000002500000000; NumGC := 2;
          GCCPUFraction := fzero |};
     NumGoroutine := 5; NumCPU := 4; NumThreads := 7 |}.

(** A reading whose heap-alloc field has its top bit set. *)
Definition rt_huge_heap : Runtime :=
  {| ReadMemStats :=
       {| HeapAlloc := 2 ^ 63; HeapIdle := 0; HeapInuse := 0;
          HeapObjects := 0; HeapReleased := 0; HeapSys := 0;
          StackInuse := 0; StackSys := 0; GCSys := 0; LastGC := 0;
          NumGC := 0; GCCPUFraction := fzero |};
     NumGoroutine := 1; NumCPU := 1; NumThreads := 1 |}.

(** A backend that rejects [go_goroutines] and nothing else. *)
Definition reject_goroutines (_ : Meter) (i : Instrument) : bool :=
  negb (String.eqb (inst_name i) "go_goroutines").


(** ** Counting what a sequence of requests asks for *)

Definition zsum (vs : list Z) : Z := fold_right Z.add 0 vs.

(** The number of [/spawn-goroutines] requests. *)
Fixpoint spawn_requests (rs : list Request) : Z :=
  match rs with
  | [] => 0
  | GetSpawnGoroutines :: rs' => 1 + spawn_requests rs'
  | _ :: rs' => spawn_requests rs'
  end.

(** The number of [/simulate-mutex] requests, and the durations they
    measured, summed. *)
Fixpoint mutex_requests (rs : list Request) : Z :=
  match rs with
  | [] => 0
  | GetSimulateMutex _ :: rs' => 1 + mutex_requests rs'
  | _ :: rs' => mutex_requests rs'
  end.

Fixpoint mutex_elapsed (rs : list Request) : Z :=
  match rs with
  | [] => 0
  | GetSimulateMutex elapsed :: rs' => elapsed + mutex_elapsed rs'
  | _ :: rs' => mutex_elapsed rs'
  end.

(** The number of scrapes. *)
Fixpoint scrapes (rs : list Request) : nat :=
  match rs with
  | [] => O
  | GetMetrics _ :: rs' => S (scrapes rs')
  | _ :: rs' => scrapes rs'
  end.

(** The largest cycle count among [g] and the readings of the scrapes. *)
Fixpoint max_NumGC (rs : list Request) (g : Z) : Z :=
  match rs with
  | [] => g
  | GetMetrics rt :: rs' => max_NumGC rs' (Z.max g (NumGC (ReadMemStats rt)))
  | _ :: rs' => max_NumGC rs' g
  end.

(** The [uint64] fields of a reading that go to an [int64] gauge. *)
Definition gauge_fields (s : MemStats) : list Z :=
  [HeapAlloc s; HeapIdle s; HeapInuse s; HeapObjects s; HeapReleased s;
   HeapSys s; GCSys s; StackInuse s; StackSys s].

(** A third cycle whose timestamp lies before the one stored. *)
Definition rt_clock_back : Runtime :=
  {| ReadMemStats :=
       {| HeapAlloc := 1048576; HeapIdle := 65536; HeapInuse := 2097152;
          HeapObjects := 4096; HeapReleased := 0; HeapSys := 4194304;
          StackInuse := 32768; StackSys := 32768; GCSys := 131072;
          LastGC := 1700000001000000000; NumGC := 3;
          GCCPUFraction := fzero |};
     NumGoroutine := 5; NumCPU := 4; NumThreads := 7 |}.

(** A backend that registers no callback. *)
Definition reject_callbacks (_ : Meter) (_ : list Instrument) : bool := false.

(** * Properties *)

Lemma callback_unfold (rt : Runtime) (mc : MetricsCollector) :
  callback rt mc =
  (None,
   if lastGC mc <? NumGC (ReadMemStats rt)
   then set_lastPause (LastGC (ReadMemStats rt))
          (set_lastGC (NumGC (ReadMemStats rt)) mc)
   else mc,
   pass_observations rt mc ++ pass_gc_events rt mc).
Proof.
  unfold callback, pass_gc_events, pass_observations.
  destruct (lastGC mc <? NumGC (ReadMemStats rt)) eqn:Hgc;
    destruct (lastPause mc <? LastGC (ReadMemStats rt)) eqn:Hp;
    cbv [CbMonad.bind CbMonad.get CbMonad.when CbMonad.ret CbMonad.modify
         CbMonad.emit ObserveInt64 ObserveFloat64 Add Record_ app];
    rewrite ?Hgc, ?Hp; reflexivity.
Qed.

(** ** Startup *)

Lemma main_accept_all :
  main accept_all accept_all_callbacks None None = Serving meter0 process0.
Proof. reflexivity. Qed.

(** ** Fixed-width arithmetic *)

Lemma is_uint32_range z : is_uint32 z = true <-> 0 <= z <= uint32_max.
Proof. unfold is_uint32. rewrite andb_true_iff, !Z.leb_le. tauto. Qed.

Lemma is_uint64_range z : is_uint64 z = true <-> 0 <= z <= uint64_max.
Proof. unfold is_uint64. rewrite andb_true_iff, !Z.leb_le. tauto. Qed.

Lemma is_int64_range z : is_int64 z = true <-> int64_min <= z <= int64_max.
Proof. unfold is_int64. rewrite andb_true_iff, !Z.leb_le. tauto. Qed.

Lemma wrap_int64_id z : int64_min <= z <= int64_max -> wrap_int64 z = z.
Proof.
  unfold wrap_int64, int64_min, int64_max. intros H.
  rewrite Z.mod_small; lia.
Qed.

Lemma wrap_uint32_id z : 0 <= z <= uint32_max -> wrap_uint32 z = z.
Proof. unfold wrap_uint32, uint32_max. intros H. apply Z.mod_small. lia. Qed.

Lemma wrap_uint64_id z : 0 <= z <= uint64_max -> wrap_uint64 z = z.
Proof. unfold wrap_uint64, uint64_max. intros H. apply Z.mod_small. lia. Qed.

Lemma wrap_uint64_nonneg z : 0 <= wrap_uint64 z.
Proof. unfold wrap_uint64. apply Z.mod_pos_bound. lia. Qed.

(** The delta of the cycle counts, when the new one is the larger. *)
Lemma gc_delta_exact a b :
  0 <= b -> b < a -> a <= uint32_max ->
  int64_of_uint32 (sub_uint32 a b) = a - b.
Proof.
  intros Hb Hlt Ha. unfold int64_of_uint32, sub_uint32.
  rewrite wrap_uint32_id by lia.
  apply wrap_int64_id. unfold int64_min, int64_max, uint32_max in *. lia.
Qed.

(** ** Reading a log *)

Lemma added_app i l1 l2 : added i (l1 ++ l2) = added i l1 ++ added i l2.
Proof.
  induction l1 as [|e l1 IH]; [reflexivity|].
  destruct e as [j v|j v|j v]; simpl; auto.
  destruct (Instrument_eqb j i); simpl; now rewrite IH.
Qed.

Lemma recorded_app i l1 l2 :
  recorded i (l1 ++ l2) = recorded i l1 ++ recorded i l2.
Proof.
  induction l1 as [|e l1 IH]; [reflexivity|].
  destruct e as [j v|j v|j v]; simpl; auto.
  destruct (Instrument_eqb j i); simpl; now rewrite IH.
Qed.

Lemma counter_sum_app l1 l2 :
  counter_sum (l1 ++ l2) = fold_left add_int64 l2 (counter_sum l1).
Proof. unfold counter_sum. apply fold_left_app. Qed.

Lemma handle_log r p :
  sdk_log (fst (handle r p)) = sdk_log p ++ events_of r p.
Proof.
  destruct r; simpl.
  - reflexivity.
  - destruct (spawn_goroutines (collector p)) as [[msg mc] evs]. reflexivity.
  - destruct (simulate_mutex elapsed (collector p)) as [[msg mc] evs].
    reflexivity.
  - unfold metrics. destruct (callback rt (collector p)) as [[e mc] evs].
    reflexivity.
Qed.

Lemma handle_collector_metrics rt p :
  collector (fst (handle (GetMetrics rt) p)) =
  if lastGC (collector p) <? NumGC (ReadMemStats rt)
  then set_lastPause (LastGC (ReadMemStats rt))
         (set_lastGC (NumGC (ReadMemStats rt)) (collector p))
  else collector p.
Proof. simpl. unfold metrics. rewrite callback_unfold. reflexivity. Qed.

Lemma handle_collector_other r p :
  (forall rt, r <> GetMetrics rt) ->
  collector (fst (handle r p)) = collector p.
Proof.
  intros H. destruct r; try reflexivity. now elim (H rt).
Qed.

Lemma events_of_metrics rt p :
  events_of (GetMetrics rt) p =
  pass_observations rt (collector p) ++ pass_gc_events rt (collector p).
Proof. simpl. unfold metrics. now rewrite callback_unfold. Qed.

(** ** The handles never change *)

Lemma handles_kept_process0 : handles_kept process0.
Proof. reflexivity. Qed.

Lemma handles_kept_step r p : handles_kept p -> handles_kept (fst (handle r p)).
Proof.
  unfold handles_kept. intros H. destruct r.
  - exact H.
  - exact H.
  - exact H.
  - rewrite handle_collector_metrics.
    destruct (lastGC (collector p) <? NumGC (ReadMemStats rt)); [|exact H].
    rewrite H. reflexivity.
Qed.

Lemma handles_kept_run rs : forall p, handles_kept p -> handles_kept (run rs p).
Proof.
  induction rs as [|r rs IH]; intros p H; simpl; [exact H|].
  apply IH, handles_kept_step, H.
Qed.

(** ** What each route adds to the counters *)

Lemma added_pass_observations i rt mc : added i (pass_observations rt mc) = [].
Proof. reflexivity. Qed.

Lemma added_metrics i rt p :
  handles_kept p ->
  added i (events_of (GetMetrics rt) p) =
  if (lastGC (collector p) <? NumGC (ReadMemStats rt))
     && Instrument_eqb (gcCount collector0) i
  then [int64_of_uint32
          (sub_uint32 (NumGC (ReadMemStats rt)) (lastGC (collector p)))]
  else [].
Proof.
  intros H. rewrite events_of_metrics, added_app, added_pass_observations.
  unfold pass_gc_events. simpl app.
  assert (Hg : gcCount (collector p) = gcCount collector0)
    by (rewrite H; reflexivity).
  rewrite Hg.
  destruct (lastGC (collector p) <? NumGC (ReadMemStats rt)); [|reflexivity].
  destruct (lastPause (collector p) <? LastGC (ReadMemStats rt));
    simpl; destruct (Instrument_eqb (gcCount collector0) i); reflexivity.
Qed.

Lemma events_of_spawn p :
  events_of GetSpawnGoroutines p
  = repeat (EvAdd (totalGoroutines (collector p)) 1) 10.
Proof. reflexivity. Qed.

Lemma events_of_mutex elapsed p :
  events_of (GetSimulateMutex elapsed) p
  = [EvAdd (mutexWaitTime (collector p)) elapsed;
     EvAdd (mutexLockCount (collector p)) 1].
Proof. reflexivity. Qed.

Lemma added_spawn i p :
  handles_kept p ->
  added i (events_of GetSpawnGoroutines p) =
  if Instrument_eqb (totalGoroutines collector0) i
  then [1; 1; 1; 1; 1; 1; 1; 1; 1; 1]
  else [].
Proof.
  intros H. rewrite events_of_spawn.
  assert (Hg : totalGoroutines (collector p) = totalGoroutines collector0)
    by (rewrite H; reflexivity).
  rewrite Hg. cbn [repeat added].
  destruct (Instrument_eqb (totalGoroutines collector0) i); reflexivity.
Qed.

Lemma added_mutex i elapsed p :
  handles_kept p ->
  added i (events_of (GetSimulateMutex elapsed) p) =
  (if Instrument_eqb (mutexWaitTime collector0) i then [elapsed] else [])
  ++ (if Instrument_eqb (mutexLockCount collector0) i then [1] else []).
Proof.
  intros H. rewrite events_of_mutex.
  assert (Hw : mutexWaitTime (collector p) = mutexWaitTime collector0)
    by (rewrite H; reflexivity).
  assert (Hl : mutexLockCount (collector p) = mutexLockCount collector0)
    by (rewrite H; reflexivity).
  rewrite Hw, Hl. cbn [added].
  destruct (Instrument_eqb (mutexWaitTime collector0) i);
    destruct (Instrument_eqb (mutexLockCount collector0) i); reflexivity.
Qed.

Lemma added_allocate i p : added i (events_of GetAllocateMemory p) = [].
Proof. reflexivity. Qed.

(** A counter none of the four written ones is never added to. *)
Lemma never_added i :
  Instrument_eqb (gcCount collector0) i = false ->
  Instrument_eqb (totalGoroutines collector0) i = false ->
  Instrument_eqb (mutexWaitTime collector0) i = false ->
  Instrument_eqb (mutexLockCount collector0) i = false ->
  forall rs p, handles_kept p ->
    added i (sdk_log p) = [] -> added i (sdk_log (run rs p)) = [].
Proof.
  intros Hgc Hgo Hw Hl.
  induction rs as [|r rs IH]; intros p Hk Hp; simpl; [exact Hp|].
  apply IH; [now apply handles_kept_step|].
  rewrite handle_log, added_app, Hp. simpl.
  destruct r.
  - apply added_allocate.
  - rewrite added_spawn, Hgo by exact Hk. reflexivity.
  - rewrite added_mutex, Hw, Hl by exact Hk. reflexivity.
  - rewrite added_metrics, Hgc, andb_false_r by exact Hk. reflexivity.
Qed.

(** ** The cycle counter follows [lastGC] *)

Lemma wf_Runtime_NumGC rt :
  wf_Runtime rt = true -> 0 <= NumGC (ReadMemStats rt) <= uint32_max.
Proof.
  unfold wf_Runtime, wf_MemStats. rewrite !andb_true_iff.
  intros H. apply is_uint32_range. tauto.
Qed.

Lemma wf_Runtime_LastGC rt :
  wf_Runtime rt = true -> 0 <= LastGC (ReadMemStats rt) <= uint64_max.
Proof.
  unfold wf_Runtime, wf_MemStats. rewrite !andb_true_iff.
  intros H. apply is_uint64_range. tauto.
Qed.

Lemma counter_total_step i r p :
  counter_total i (fst (handle r p)) =
  fold_left add_int64 (added i (events_of r p)) (counter_total i p).
Proof.
  unfold counter_total. now rewrite handle_log, added_app, counter_sum_app.
Qed.

Lemma Inv_process0 : Inv process0.
Proof. repeat split. Qed.

Lemma Inv_step r p : wf_Request r = true -> Inv p -> Inv (fst (handle r p)).
Proof.
  intros Hwf (Hk & Hgc & Hp & Ht).
  split; [now apply handles_kept_step|].
  destruct r.
  - repeat split; try assumption.
    rewrite counter_total_step, added_allocate. exact Ht.
  - repeat split; try assumption.
    rewrite counter_total_step, added_spawn by exact Hk. exact Ht.
  - repeat split; try assumption.
    rewrite counter_total_step, added_mutex by exact Hk. exact Ht.
  - simpl in Hwf.
    pose proof (wf_Runtime_NumGC rt Hwf) as Hn.
    pose proof (wf_Runtime_LastGC rt Hwf) as Hl.
    apply is_uint32_range in Hgc.
    rewrite counter_total_step, added_metrics, handle_collector_metrics
      by exact Hk.
    change (Instrument_eqb (gcCount collector0) (gcCount collector0))
      with true.
    rewrite andb_true_r.
    destruct (Z.ltb_spec (lastGC (collector p)) (NumGC (ReadMemStats rt)))
      as [Hlt|Hge].
    + cbn [fold_left set_lastPause set_lastGC lastGC lastPause].
      repeat split.
      * apply is_uint32_range. exact Hn.
      * apply is_uint64_range. exact Hl.
      * rewrite Ht, gc_delta_exact by lia. unfold add_int64.
        rewrite wrap_int64_id;
          unfold int64_min, int64_max, uint32_max in *; lia.
    + cbn [fold_left]. repeat split; try assumption.
      apply is_uint32_range. exact Hgc.
Qed.

Lemma Inv_run rs :
  forall p, forallb wf_Request rs = true -> Inv p -> Inv (run rs p).
Proof.
  induction rs as [|r rs IH]; intros p Hwf Hi; simpl; [exact Hi|].
  simpl in Hwf. apply andb_true_iff in Hwf as [Hr Hrs].
  apply IH; [exact Hrs|]. now apply Inv_step.
Qed.

(** C1: over any sequence of requests the total of [go_gc_cycles_total]
    never decreases, and a sampling pass adds to it the snapshot's cycle
    count minus [lastGC] when that difference is strictly positive, and
    nothing otherwise. *)
Theorem gc_cycles_total_delta (rs : list Request) (rt : Runtime) :
  forallb wf_Request rs = true ->
  wf_Runtime rt = true ->
  let p := run rs process0 in
  let gc := gcCount collector0 in
  let d := NumGC (ReadMemStats rt) - lastGC (collector p) in
  added gc (events_of (GetMetrics rt) p) = (if 0 <? d then [d] else [])
  /\ counter_total gc (fst (handle (GetMetrics rt) p))
     = counter_total gc p + (if 0 <? d then d else 0)
  /\ (forall r, wf_Request r = true ->
        counter_total gc p <= counter_total gc (fst (handle r p))).
Proof.
  intros Hrs Hrt p gc d.
  pose proof (Inv_run rs process0 Hrs Inv_process0) as Hinv.
  fold p in Hinv.
  assert (Hstep : forall r, wf_Request r = true ->
            lastGC (collector p) <= lastGC (collector (fst (handle r p)))
            /\ counter_total gc (fst (handle r p))
               = lastGC (collector (fst (handle r p)))).
  { intros r Hr. pose proof (Inv_step r p Hr Hinv) as (_ & _ & _ & Ht').
    split; [|exact Ht'].
    destruct r; try (simpl; lia).
    rewrite handle_collector_metrics.
    destruct (Z.ltb_spec (lastGC (collector p)) (NumGC (ReadMemStats rt0)));
      simpl; lia. }
  destruct Hinv as (Hk & Hgc & Hp & Ht).
  pose proof (wf_Runtime_NumGC rt Hrt) as Hn.
  apply is_uint32_range in Hgc.
  assert (Hadd : added gc (events_of (GetMetrics rt) p)
                 = if 0 <? d then [d] else []).
  { rewrite added_metrics by exact Hk.
    change (Instrument_eqb (gcCount collector0) gc) with true.
    rewrite andb_true_r. subst d.
    destruct (Z.ltb_spec (lastGC (collector p)) (NumGC (ReadMemStats rt)));
      destruct (Z.ltb_spec 0 (NumGC (ReadMemStats rt) - lastGC (collector p)));
      try lia; [|reflexivity].
    now rewrite gc_delta_exact by lia. }
  split; [exact Hadd|]. split.
  - rewrite counter_total_step, Hadd. fold gc in Ht. rewrite Ht.
    destruct (Z.ltb_spec 0 d); cbn [fold_left]; [|lia].
    unfold add_int64. apply wrap_int64_id.
    subst d. unfold int64_min, int64_max, uint32_max in *. lia.
  - intros r Hr. destruct (Hstep r Hr) as [Hle Heq].
    rewrite Heq. fold gc in Ht. rewrite Ht. exact Hle.
Qed.

Lemma gc_cycles_total_delta_witness :
  forallb wf_Request [GetMetrics rt_one_gc; GetSpawnGoroutines] = true
  /\ wf_Runtime rt_two_gc = true
  /\ counter_total (gcCount collector0)
       (fst (handle (GetMetrics rt_two_gc)
               (run [GetMetrics rt_one_gc; GetSpawnGoroutines] process0)))
     = counter_total (gcCount collector0)
         (run [GetMetrics rt_one_gc; GetSpawnGoroutines] process0) + 1.
Proof.
  split; [reflexivity|]. split; [reflexivity|].
  exact (proj1 (proj2 (gc_cycles_total_delta
                         [GetMetrics rt_one_gc; GetSpawnGoroutines] rt_two_gc
                         eq_refl eq_refl))).
Defined.

(** ** Floats: rounding a non-negative mantissa gives a non-negative float *)

Lemma shr_1_nonneg mrs : 0 <= shr_m mrs -> 0 <= shr_m (shr_1 mrs).
Proof.
  destruct mrs as [m r s]. destruct m as [|q|q]; simpl; intros H.
  - lia.
  - destruct q; simpl; lia.
  - lia.
Qed.

Lemma iter_pos_preserves {A} (P : A -> Prop) (f : A -> A) :
  (forall x, P x -> P (f x)) ->
  forall n x, P x -> P (iter_pos f n x).
Proof.
  intros Hf. induction n as [n IH|n IH|]; intros x Hx; simpl; auto.
Qed.

Lemma shr_nonneg mrs e n : 0 <= shr_m mrs -> 0 <= shr_m (fst (shr mrs e n)).
Proof.
  intros H. unfold shr. destruct n; simpl; try exact H.
  apply (iter_pos_preserves (fun x => 0 <= shr_m x)); [|exact H].
  exact shr_1_nonneg.
Qed.

Lemma shr_fexp_nonneg m e l :
  0 <= m -> 0 <= shr_m (fst (shr_fexp prec emax m e l)).
Proof.
  intros H. unfold shr_fexp. apply shr_nonneg.
  destruct l as [|[ | | ]]; exact H.
Qed.

Lemma round_nearest_even_nonneg m l :
  0 <= m -> 0 <= round_nearest_even m l.
Proof.
  intros H. destruct l as [|[ | | ]]; simpl; try lia.
  destruct (Z.even m); lia.
Qed.

Lemma binary_round_aux_nonneg mx ex lx :
  0 <= mx -> float_nonneg (binary_round_aux prec emax false mx ex lx) = true.
Proof.
  intros H. unfold binary_round_aux.
  pose proof (shr_fexp_nonneg mx ex lx H) as H1.
  destruct (shr_fexp prec emax mx ex lx) as [mrs' e'].
  simpl fst in H1.
  pose proof (shr_fexp_nonneg _ e' loc_Exact
                (round_nearest_even_nonneg (shr_m mrs')
                   (loc_of_shr_record mrs') H1)) as H2.
  destruct (shr_fexp prec emax _ e' loc_Exact) as [mrs'' e''].
  simpl fst in H2.
  destruct (shr_m mrs'') as [|q|q].
  - reflexivity.
  - destruct (e'' <=? emax - prec); reflexivity.
  - lia.
Qed.

Lemma float64_of_uint64_nonneg z :
  0 <= z -> float_nonneg (float64_of_uint64 z) = true.
Proof.
  intros H. unfold float64_of_uint64, binary_normalize.
  destruct z as [|q|q]; [reflexivity| |lia].
  unfold binary_round.
  destruct (shl_align q 0 (fexp prec emax (Z.pos (digits2_pos q) + 0)))
    as [mz ez].
  apply binary_round_aux_nonneg. lia.
Qed.

Lemma f1e9_finite : f1e9 = S754_finite false 8388608000000000 (-23).
Proof. reflexivity. Qed.

Lemma fdiv_1e9_nonneg x :
  float_nonneg x = true -> float_nonneg (fdiv x f1e9) = true.
Proof.
  rewrite f1e9_finite. unfold fdiv.
  destruct x as [s|s| |s m e]; simpl SFdiv.
  - intros _. reflexivity.
  - destruct s; [discriminate|]. intros _. reflexivity.
  - discriminate.
  - destruct s; [discriminate|]. intros _.
    unfold SFdiv_core_binary.
    set (m' := match _ with Z0 => Z.pos m | Z.pos _ => _ | Z.neg _ => 0 end).
    assert (Hm : 0 <= m').
    { subst m'. destruct (_ - _ - _) as [|q|q]; try lia.
      apply Z.shiftl_nonneg. lia. }
    pose proof (Z.div_pos m' 8388608000000000 Hm ltac:(lia)) as Hq.
    unfold Z.div in Hq.
    destruct (Z.div_eucl m' 8388608000000000) as [q r].
    apply binary_round_aux_nonneg. exact Hq.
Qed.

(** One second, two and a half seconds, and the first pause the program
    ever records (the whole time since the epoch). *)
Example fdiv_one_second :
  fdiv (float64_of_uint64 1000000000) f1e9
  = S754_finite false 4503599627370496 (-52).
Proof. reflexivity. Qed.

Example fdiv_two_and_a_half_seconds :
  fdiv (float64_of_uint64 2500000000) f1e9
  = S754_finite false 5629499534213120 (-51).
Proof. reflexivity. Qed.

(** ** What each route records into the histogram *)

Lemma recorded_metrics i rt p :
  handles_kept p ->
  recorded i (events_of (GetMetrics rt) p) =
  if (lastGC (collector p) <? NumGC (ReadMemStats rt))
     && (lastPause (collector p) <? LastGC (ReadMemStats rt))
     && Instrument_eqb (gcPauseDuration collector0) i
  then [fdiv (float64_of_uint64
                (sub_uint64 (LastGC (ReadMemStats rt))
                   (lastPause (collector p))))
          f1e9]
  else [].
Proof.
  intros H. rewrite events_of_metrics, recorded_app.
  change (recorded i (pass_observations rt (collector p))) with (@nil float64).
  unfold pass_gc_events. simpl app.
  assert (Hg : gcPauseDuration (collector p) = gcPauseDuration collector0)
    by (rewrite H; reflexivity).
  rewrite Hg.
  destruct (lastGC (collector p) <? NumGC (ReadMemStats rt)); [|reflexivity].
  destruct (lastPause (collector p) <? LastGC (ReadMemStats rt));
    [|reflexivity].
  cbn [recorded andb].
  destruct (Instrument_eqb (gcPauseDuration collector0) i); reflexivity.
Qed.

Lemma recorded_other i r p :
  (forall rt, r <> GetMetrics rt) -> recorded i (events_of r p) = [].
Proof.
  intros H. destruct r; try reflexivity. now elim (H rt).
Qed.

(** C2: a sampling pass records into [go_gc_duration_seconds] only when
    the snapshot's cycle count exceeds [lastGC] and its last-GC timestamp
    exceeds [lastPause]; the value is the difference of the timestamps,
    converted to [float64] and divided by [1e9]; whatever the stored and
    snapshot values, no route ever records a negative value. *)
Theorem gc_duration_recorded (rs : list Request) (rt : Runtime) :
  forallb wf_Request rs = true ->
  wf_Runtime rt = true ->
  let p := run rs process0 in
  let mc := collector p in
  let stats := ReadMemStats rt in
  let h := gcPauseDuration collector0 in
  recorded h (events_of (GetMetrics rt) p)
  = (if (lastGC mc <? NumGC stats) && (lastPause mc <? LastGC stats)
     then [fdiv (float64_of_uint64 (LastGC stats - lastPause mc)) f1e9]
     else [])
  /\ (forall (r : Request) (q : Process) (v : float64),
        handles_kept q -> In v (recorded h (events_of r q)) ->
        float_nonneg v = true).
Proof.
  intros Hrs Hrt p mc stats h.
  pose proof (Inv_run rs process0 Hrs Inv_process0) as (Hk & Hgc & Hp & _).
  fold p in Hk, Hgc, Hp. fold mc in Hgc, Hp.
  split.
  - rewrite recorded_metrics by exact Hk. fold mc stats.
    change (Instrument_eqb (gcPauseDuration collector0) h) with true.
    rewrite andb_true_r.
    destruct (lastGC mc <? NumGC stats); [|reflexivity].
    destruct (Z.ltb_spec (lastPause mc) (LastGC stats)) as [Hlt|Hge];
      [|reflexivity].
    cbn [andb]. unfold sub_uint64. rewrite wrap_uint64_id; [reflexivity|].
    apply is_uint64_range in Hp.
    pose proof (wf_Runtime_LastGC rt Hrt) as Hl. fold stats in Hl. lia.
  - intros r q v Hq Hin. destruct r.
    + destruct Hin.
    + rewrite recorded_other in Hin by discriminate. destruct Hin.
    + destruct Hin.
    + rewrite recorded_metrics in Hin by exact Hq.
      destruct (_ && _ && _); [|destruct Hin].
      destruct Hin as [<-|[]].
      apply fdiv_1e9_nonneg, float64_of_uint64_nonneg, wrap_uint64_nonneg.
Qed.

Lemma gc_duration_recorded_witness :
  forallb wf_Request [GetMetrics rt_one_gc] = true
  /\ wf_Runtime rt_two_gc = true
  /\ recorded (gcPauseDuration collector0)
       (events_of (GetMetrics rt_two_gc) (run [GetMetrics rt_one_gc] process0))
     = [S754_finite false 5629499534213120 (-51)].
Proof.
  split; [reflexivity|]. split; [reflexivity|].
  exact (proj1 (gc_duration_recorded [GetMetrics rt_one_gc] rt_two_gc
                  eq_refl eq_refl)).
Defined.

(** C4: a sampling pass writes [lastGC] and [lastPause] only when the
    snapshot's cycle count is strictly greater than [lastGC]; then both take
    the snapshot's cycle count and last-GC timestamp, and otherwise the
    collector is left as it was. *)
Theorem cumulative_state_frame (rt : Runtime) (p : Process) :
  let mc := collector p in
  let mc' := collector (fst (handle (GetMetrics rt) p)) in
  if lastGC mc <? NumGC (ReadMemStats rt)
  then lastGC mc' = NumGC (ReadMemStats rt)
       /\ lastPause mc' = LastGC (ReadMemStats rt)
  else mc' = mc.
Proof.
  intros mc mc'. subst mc'. rewrite handle_collector_metrics. fold mc.
  destruct (lastGC mc <? NumGC (ReadMemStats rt)); [split|]; reflexivity.
Qed.

(** ** What a scrape publishes *)

Lemma observations_of_app l1 l2 :
  observations_of (l1 ++ l2) = observations_of l1 ++ observations_of l2.
Proof.
  induction l1 as [|e l1 IH]; [reflexivity|].
  destruct e; simpl; now rewrite ?IH.
Qed.

Lemma observations_of_gc_events rt mc :
  observations_of (pass_gc_events rt mc) = [].
Proof.
  unfold pass_gc_events.
  destruct (lastGC mc <? NumGC (ReadMemStats rt)); [|reflexivity].
  destruct (lastPause mc <? LastGC (ReadMemStats rt)); reflexivity.
Qed.

(** Every value of a scrape comes from the one reading of that pass. *)
Lemma metrics_body rt p :
  body (snd (handle (GetMetrics rt) p))
  = Collected (observations_of (pass_observations rt (collector p))).
Proof.
  unfold handle, metrics. rewrite callback_unfold. cbn [snd body].
  now rewrite observations_of_app, observations_of_gc_events, app_nil_r.
Qed.

Lemma published_metrics i rt p :
  published i (snd (handle (GetMetrics rt) p))
  = observed i (observations_of (pass_observations rt (collector p))).
Proof. unfold published. now rewrite metrics_body. Qed.

Lemma published_run i rt rs :
  published i (snd (handle (GetMetrics rt) (run rs process0)))
  = observed i (observations_of (pass_observations rt collector0)).
Proof.
  rewrite published_metrics.
  pose proof (handles_kept_run rs process0 handles_kept_process0) as H.
  unfold handles_kept in H. rewrite H. reflexivity.
Qed.

(** The gauges other than [go_threads]: each carries its field of the
    reading, converted to [int64]. *)
Lemma gauges_from_one_reading (rs : list Request) (rt : Runtime) :
  let r := snd (handle (GetMetrics rt) (run rs process0)) in
  let stats := ReadMemStats rt in
  let c := collector0 in
  published (heapAlloc c) r = [Int64 (int64_of_uint64 (HeapAlloc stats))]
  /\ published (heapIdle c) r = [Int64 (int64_of_uint64 (HeapIdle stats))]
  /\ published (heapInUse c) r = [Int64 (int64_of_uint64 (HeapInuse stats))]
  /\ published (heapObjects c) r
     = [Int64 (int64_of_uint64 (HeapObjects stats))]
  /\ published (heapReleased c) r
     = [Int64 (int64_of_uint64 (HeapReleased stats))]
  /\ published (heapSys c) r = [Int64 (int64_of_uint64 (HeapSys stats))]
  /\ published (activeGoroutines c) r
     = [Int64 (int64_of_int (NumGoroutine rt))]
  /\ published (gcCPUFraction c) r = [Float64 (GCCPUFraction stats)]
  /\ published (gcSys c) r = [Int64 (int64_of_uint64 (GCSys stats))]
  /\ published (stackInUse c) r
     = [Int64 (int64_of_uint64 (StackInuse stats))]
  /\ published (stackSys c) r = [Int64 (int64_of_uint64 (StackSys stats))].
Proof.
  intros r stats c. subst r. rewrite !published_run.
  repeat split; reflexivity.
Qed.

(** The [go_threads] gauge carries the number of CPUs. *)
Lemma os_threads_gauge_is_NumCPU (rs : list Request) (rt : Runtime) :
  published (osThreads collector0)
    (snd (handle (GetMetrics rt) (run rs process0)))
  = [Int64 (int64_of_int (NumCPU rt))].
Proof. rewrite published_run. reflexivity. Qed.

(** C3 at a reading with four CPUs and seven OS threads: the gauge
    described as the number of OS threads created publishes 4. *)
Theorem os_threads_gauge_at_four_cpus :
  inst_name (osThreads collector0) = "go_threads"
  /\ inst_description (osThreads collector0) = "Number of OS threads created"
  /\ wf_Runtime rt_one_gc = true
  /\ NumThreads rt_one_gc = 7
  /\ NumCPU rt_one_gc = 4
  /\ published (osThreads collector0)
       (snd (handle (GetMetrics rt_one_gc) process0))
     = [Int64 4].
Proof.
  do 5 (split; [reflexivity|]).
  exact (os_threads_gauge_is_NumCPU [] rt_one_gc).
Qed.

(** C8 as stated fails: a heap-alloc field with its top bit set is published
    as a negative number. *)
Lemma heap_alloc_negative_at_top_bit :
  wf_Runtime rt_huge_heap = true
  /\ HeapAlloc (ReadMemStats rt_huge_heap) = 2 ^ 63
  /\ published (heapAlloc collector0)
       (snd (handle (GetMetrics rt_huge_heap) process0))
     = [Int64 (- 2 ^ 63)]
  /\ - 2 ^ 63 < 0.
Proof. repeat split. Qed.

(** C8, amended: when the snapshot's heap-alloc field is at most 2^63 - 1,
    the value published for [go_memstats_heap_alloc_bytes] is that field, a
    non-negative integer. *)
Theorem heap_alloc_published_nonneg (rs : list Request) (rt : Runtime) :
  0 <= HeapAlloc (ReadMemStats rt) <= int64_max ->
  published (heapAlloc collector0)
    (snd (handle (GetMetrics rt) (run rs process0)))
  = [Int64 (HeapAlloc (ReadMemStats rt))]
  /\ 0 <= int64_of_uint64 (HeapAlloc (ReadMemStats rt)).
Proof.
  intros H.
  destruct (gauges_from_one_reading rs rt) as [Hh _]. rewrite Hh.
  unfold int64_of_uint64. rewrite wrap_int64_id.
  - split; [reflexivity|lia].
  - unfold int64_min. lia.
Qed.

Lemma heap_alloc_published_nonneg_witness :
  0 <= HeapAlloc (ReadMemStats rt_one_gc) <= int64_max
  /\ published (heapAlloc collector0)
       (snd (handle (GetMetrics rt_one_gc) (run [GetAllocateMemory] process0)))
     = [Int64 1048576].
Proof.
  assert (H : 0 <= HeapAlloc (ReadMemStats rt_one_gc) <= int64_max)
    by (unfold int64_max; simpl; lia).
  split; [exact H|].
  exact (proj1 (heap_alloc_published_nonneg [GetAllocateMemory] rt_one_gc H)).
Defined.

(** ** The mutex counters *)

(** Three calls of [/simulate-mutex] in a row: the lock counter reads 3 and
    the wait counter the sum of the three measured durations, in
    nanoseconds. *)
Lemma mutex_totals_three_calls (e1 e2 e3 : Z) :
  0 <= e1 <= 2 ^ 61 -> 0 <= e2 <= 2 ^ 61 -> 0 <= e3 <= 2 ^ 61 ->
  let p := run [GetSimulateMutex e1; GetSimulateMutex e2; GetSimulateMutex e3]
             process0 in
  counter_total (mutexLockCount collector0) p = 3
  /\ counter_total (mutexWaitTime collector0) p = e1 + e2 + e3.
Proof.
  intros H1 H2 H3 p. split; [reflexivity|].
  unfold counter_total.
  change (added (mutexWaitTime collector0) (sdk_log p)) with [e1; e2; e3].
  unfold counter_sum. cbn [fold_left]. unfold add_int64.
  rewrite (wrap_int64_id (0 + e1)) by (unfold int64_min, int64_max; lia).
  rewrite (wrap_int64_id (0 + e1 + e2))
    by (unfold int64_min, int64_max; lia).
  rewrite wrap_int64_id; unfold int64_min, int64_max; lia.
Qed.

(** C7 at three calls that each measure exactly 0.1 s: the lock counter
    reads 3, and the counter named [go_mutex_wait_seconds_total] reads
    300000000, the elapsed nanoseconds. *)
Theorem mutex_wait_total_in_nanoseconds :
  let p := run [GetSimulateMutex 100000000; GetSimulateMutex 100000000;
                GetSimulateMutex 100000000] process0 in
  inst_name (mutexWaitTime collector0) = "go_mutex_wait_seconds_total"
  /\ inst_name (mutexLockCount collector0) = "go_mutex_lock_total"
  /\ counter_total (mutexLockCount collector0) p = 3
  /\ counter_total (mutexWaitTime collector0) p = 300000000.
Proof.
  intros p. do 2 (split; [reflexivity|]).
  apply (mutex_totals_three_calls 100000000 100000000 100000000); lia.
Qed.

(** ** The counters nothing writes *)

(** C10: [go_gc_forced_total], [go_runtime_cpu_goroutine_seconds_total],
    [go_gc_cpu_seconds_total] and [go_runtime_sys_seconds_total] are created
    at startup as counters, and whatever requests are served afterwards no
    value is ever added to any of them: each totals 0. *)
Theorem unused_counters_stay_zero (rs : list Request) :
  map inst_name
    [gcForced collector0; goroutineExecTime collector0; gcTime collector0;
     systemTime collector0]
  = ["go_gc_forced_total"; "go_runtime_cpu_goroutine_seconds_total";
     "go_gc_cpu_seconds_total"; "go_runtime_sys_seconds_total"]
  /\ Forall
       (fun i =>
          In i (instruments meter0)
          /\ is_counter i = true
          /\ added i (sdk_log (run rs process0)) = []
          /\ counter_total i (run rs process0) = 0)
       [gcForced collector0; goroutineExecTime collector0; gcTime collector0;
        systemTime collector0].
Proof.
  split; [reflexivity|].
  assert (H : forall i,
             In i (instruments meter0) ->
             is_counter i = true ->
             Instrument_eqb (gcCount collector0) i = false ->
             Instrument_eqb (totalGoroutines collector0) i = false ->
             Instrument_eqb (mutexWaitTime collector0) i = false ->
             Instrument_eqb (mutexLockCount collector0) i = false ->
             In i (instruments meter0)
             /\ is_counter i = true
             /\ added i (sdk_log (run rs process0)) = []
             /\ counter_total i (run rs process0) = 0).
  { intros i Hin Hc H1 H2 H3 H4.
    assert (Ha : added i (sdk_log (run rs process0)) = [])
      by (apply never_added; auto using handles_kept_process0).
    repeat split; try assumption.
    unfold counter_total. now rewrite Ha. }
  do 4 (apply Forall_cons;
        [apply H; try reflexivity;
         cbv [instruments meter0 started fst In];
         repeat (first [left; reflexivity | right])|]).
  apply Forall_nil.
Qed.

(** ** The constructor, instrument by instrument *)

Lemma intended_eq :
  intended =
  [heapAlloc collector0; heapIdle collector0; heapInUse collector0;
   heapObjects collector0; heapReleased collector0; heapSys collector0;
   gcPauseDuration collector0; gcCount collector0; gcForced collector0;
   activeGoroutines collector0; totalGoroutines collector0;
   gcCPUFraction collector0; gcSys collector0; goroutineExecTime collector0;
   gcTime collector0; systemTime collector0; osThreads collector0;
   stackInUse collector0; stackSys collector0; mutexWaitTime collector0;
   mutexLockCount collector0].
Proof. reflexivity. Qed.

(** The constructor creates the intended instruments in order, stops at
    the first one the backend rejects, and registers the callback last. *)
Lemma newMetricsCollector_create_all accept accept_callback m :
  newMetricsCollector accept accept_callback m =
  match create_all accept intended m with
  | (m', Some e) => (m', (None, Some e))
  | (m', None) =>
      if accept_callback m' observable
      then (add_callback observable m', (Some collector0, None))
      else (m', (Some collector0, Some ErrCallback))
  end.
Proof.
  unfold newMetricsCollector.
  cbv [Int64ObservableGauge Float64ObservableGauge Float64Histogram
       Int64Counter create intended meter0 started fst instruments].
  repeat (lazymatch goal with
          | |- _ = match create_all accept (?i :: ?l) ?m0 with _ => _ end =>
              change (create_all accept (i :: l) m0)
                with (if accept m0 i
                      then create_all accept l (add_instrument i m0)
                      else (m0, Some (ErrInstrument i)));
              destruct (accept m0 i); [cbv beta iota|reflexivity]
          end).
  cbn [create_all].
  lazymatch goal with
  | |- context [RegisterCallback _ ?l ?m0] => change l with observable
  end.
  unfold RegisterCallback.
  destruct (accept_callback _ observable); reflexivity.
Qed.

Lemma add_instruments_fields l :
  forall m,
    instruments (add_instruments l m) = instruments m ++ l
    /\ callbacks (add_instruments l m) = callbacks m.
Proof.
  induction l as [|i l IH]; intros m.
  - simpl. now rewrite app_nil_r.
  - change (add_instruments (i :: l) m)
      with (add_instruments l (add_instrument i m)).
    destruct (IH (add_instrument i m)) as [Hi Hc].
    rewrite Hi, Hc. simpl. now rewrite <- app_assoc.
Qed.

(** The first rejection ends the creation: what was accepted before it is
    on the meter, nothing after it is asked for. *)
Lemma create_all_rejected accept pre i post :
  forall m,
    accepted_in_turn accept m pre = true ->
    accept (add_instruments pre m) i = false ->
    create_all accept (pre ++ i :: post) m
    = (add_instruments pre m, Some (ErrInstrument i)).
Proof.
  induction pre as [|j pre IH]; intros m Hpre Hi.
  - simpl in *. now rewrite Hi.
  - simpl in Hpre. apply andb_true_iff in Hpre as [Hj Hpre].
    simpl. rewrite Hj. now apply IH.
Qed.

Lemma create_all_accepted accept l :
  forall m m',
    create_all accept l m = (m', None) ->
    m' = add_instruments l m /\ accepted_in_turn accept m l = true.
Proof.
  induction l as [|i l IH]; intros m m' H; simpl in *.
  - inversion H. now split.
  - destruct (accept m i); [|discriminate].
    destruct (IH _ _ H) as [-> Ha]. now split.
Qed.

Lemma Serving_inj m1 p1 m2 p2 :
  Serving m1 p1 = Serving m2 p2 -> m1 = m2 /\ p1 = p2.
Proof. intros H. inversion H. now split. Qed.

Lemma main_serving accept accept_callback prometheus_New Run m p :
  main accept accept_callback prometheus_New Run = Serving m p ->
  instruments m = intended /\ callbacks m = [observable] /\ p = process0.
Proof.
  unfold main. destruct prometheus_New; [discriminate|].
  rewrite newMetricsCollector_create_all.
  destruct (create_all accept intended empty_meter) as [m' [e|]] eqn:Hc;
    [discriminate|].
  apply create_all_accepted in Hc as [-> _].
  destruct (add_instruments_fields intended empty_meter) as [Hi Hcb].
  destruct (accept_callback _ observable); [|discriminate].
  destruct Run; [discriminate|].
  intros H. apply Serving_inj in H as [<- <-].
  unfold add_callback. cbn [instruments callbacks].
  rewrite Hi, Hcb. repeat split.
Qed.

Lemma main_never_nil accept accept_callback prometheus_New Run m :
  main accept accept_callback prometheus_New Run <> ServingNil m.
Proof.
  unfold main. destruct prometheus_New; [discriminate|].
  rewrite newMetricsCollector_create_all.
  destruct (create_all accept intended empty_meter) as [m' [e|]];
    [discriminate|].
  destruct (accept_callback _ observable); [|discriminate].
  destruct Run; discriminate.
Qed.

(** C6: when the backend rejects an instrument, the constructor returns
    that error with a nil collector, having created only the instruments
    before it and registered no callback; [main] ends in [log.Fatal]; and
    whatever the backend does, a process that serves holds all the
    instruments and the callback. *)
Theorem startup_rejection_is_fatal
  (accept : Meter -> Instrument -> bool)
  (accept_callback : Meter -> list Instrument -> bool)
  (prometheus_New Run : option error)
  (pre post : list Instrument) (i : Instrument) :
  intended = pre ++ i :: post ->
  accepted_in_turn accept empty_meter pre = true ->
  accept (add_instruments pre empty_meter) i = false ->
  newMetricsCollector accept accept_callback empty_meter
  = (add_instruments pre empty_meter, (None, Some (ErrInstrument i)))
  /\ instruments (add_instruments pre empty_meter) = pre
  /\ callbacks (add_instruments pre empty_meter) = []
  /\ main accept accept_callback prometheus_New Run
     = Fatal match prometheus_New with
             | Some e => e
             | None => ErrInstrument i
             end
  /\ (forall accept' accept_callback' prometheus_New' Run' m p,
        main accept' accept_callback' prometheus_New' Run' = Serving m p ->
        instruments m = intended /\ callbacks m = [observable]
        /\ p = process0)
  /\ (forall accept' accept_callback' prometheus_New' Run' m,
        main accept' accept_callback' prometheus_New' Run' <> ServingNil m).
Proof.
  intros Hsplit Hpre Hrej.
  assert (Hnew : newMetricsCollector accept accept_callback empty_meter
                 = (add_instruments pre empty_meter,
                    (None, Some (ErrInstrument i)))).
  { rewrite newMetricsCollector_create_all, Hsplit.
    now rewrite (create_all_rejected accept pre i post empty_meter Hpre Hrej). }
  destruct (add_instruments_fields pre empty_meter) as [Hi Hc].
  split; [exact Hnew|]. split; [exact Hi|]. split; [exact Hc|]. split.
  - unfold main. destruct prometheus_New; [reflexivity|].
    now rewrite Hnew.
  - split.
    + intros. eapply main_serving; eassumption.
    + intros. apply main_never_nil.
Qed.

Lemma startup_rejection_is_fatal_witness :
  intended
  = [heapAlloc collector0; heapIdle collector0; heapInUse collector0;
     heapObjects collector0; heapReleased collector0; heapSys collector0;
     gcPauseDuration collector0; gcCount collector0; gcForced collector0]
    ++ activeGoroutines collector0
    :: [totalGoroutines collector0; gcCPUFraction collector0;
        gcSys collector0; goroutineExecTime collector0; gcTime collector0;
        systemTime collector0; osThreads collector0; stackInUse collector0;
        stackSys collector0; mutexWaitTime collector0;
        mutexLockCount collector0]
  /\ main reject_goroutines accept_all_callbacks None None
     = Fatal (ErrInstrument (activeGoroutines collector0)).
Proof.
  split; [reflexivity|].
  exact (proj1 (proj2 (proj2 (proj2
    (startup_rejection_is_fatal reject_goroutines accept_all_callbacks
       None None
       [heapAlloc collector0; heapIdle collector0; heapInUse collector0;
        heapObjects collector0; heapReleased collector0; heapSys collector0;
        gcPauseDuration collector0; gcCount collector0; gcForced collector0]
       [totalGoroutines collector0; gcCPUFraction collector0;
        gcSys collector0; goroutineExecTime collector0; gcTime collector0;
        systemTime collector0; osThreads collector0; stackInUse collector0;
        stackSys collector0; mutexWaitTime collector0;
        mutexLockCount collector0]
       (activeGoroutines collector0)
       eq_refl eq_refl eq_refl))))).
Defined.

(** ** The first scrape *)




(** * Further properties of the routes and of startup *)

(** ** Sums in [int64] *)

Lemma wrap_int64_add_l a v : wrap_int64 (wrap_int64 a + v) = wrap_int64 (a + v).
Proof.
  unfold wrap_int64.
  replace ((a + 2 ^ 63) mod 2 ^ 64 - 2 ^ 63 + v + 2 ^ 63)
    with ((a + 2 ^ 63) mod 2 ^ 64 + v) by ring.
  rewrite Zplus_mod_idemp_l. do 2 f_equal. ring.
Qed.

Lemma fold_add_int64 vs :
  forall a,
    fold_left add_int64 vs (wrap_int64 a) = wrap_int64 (a + zsum vs).
Proof.
  induction vs as [|v vs IH]; intros a; simpl.
  - now rewrite Z.add_0_r.
  - unfold add_int64 at 2. rewrite wrap_int64_add_l, IH. f_equal. ring.
Qed.

Lemma counter_sum_zsum vs : counter_sum vs = wrap_int64 (zsum vs).
Proof.
  unfold counter_sum. change 0 with (wrap_int64 0) at 1.
  now rewrite fold_add_int64.
Qed.

Lemma zsum_app l1 l2 : zsum (l1 ++ l2) = zsum l1 + zsum l2.
Proof. induction l1 as [|v l1 IH]; simpl; [reflexivity|]. rewrite IH. ring. Qed.

Lemma added_step i r p :
  added i (sdk_log (fst (handle r p)))
  = added i (sdk_log p) ++ added i (events_of r p).
Proof. now rewrite handle_log, added_app. Qed.

(** ** The application-driven counters *)

Lemma zsum_added_goroutines rs :
  forall p, handles_kept p ->
    zsum (added (totalGoroutines collector0) (sdk_log (run rs p)))
    = zsum (added (totalGoroutines collector0) (sdk_log p))
      + 10 * spawn_requests rs.
Proof.
  induction rs as [|r rs IH]; intros p Hk; [simpl; ring|].
  cbn [run]. rewrite IH by now apply handles_kept_step.
  rewrite added_step, zsum_app. destruct r; cbn [spawn_requests].
  - rewrite added_allocate. simpl zsum. ring.
  - rewrite added_spawn by exact Hk.
    change (Instrument_eqb (totalGoroutines collector0)
              (totalGoroutines collector0)) with true.
    cbv iota. change (zsum [1; 1; 1; 1; 1; 1; 1; 1; 1; 1]) with 10. ring.
  - rewrite added_mutex by exact Hk.
    change (Instrument_eqb (mutexWaitTime collector0)
              (totalGoroutines collector0)) with false.
    change (Instrument_eqb (mutexLockCount collector0)
              (totalGoroutines collector0)) with false.
    simpl zsum. ring.
  - rewrite added_metrics by exact Hk.
    change (Instrument_eqb (gcCount collector0)
              (totalGoroutines collector0)) with false.
    rewrite andb_false_r. simpl zsum. ring.
Qed.

Lemma zsum_added_mutex_lock rs :
  forall p, handles_kept p ->
    zsum (added (mutexLockCount collector0) (sdk_log (run rs p)))
    = zsum (added (mutexLockCount collector0) (sdk_log p))
      + mutex_requests rs.
Proof.
  induction rs as [|r rs IH]; intros p Hk; [simpl; ring|].
  cbn [run]. rewrite IH by now apply handles_kept_step.
  rewrite added_step, zsum_app. destruct r; cbn [mutex_requests].
  - rewrite added_allocate. simpl zsum. ring.
  - rewrite added_spawn by exact Hk.
    change (Instrument_eqb (totalGoroutines collector0)
              (mutexLockCount collector0)) with false.
    simpl zsum. ring.
  - rewrite added_mutex by exact Hk.
    change (Instrument_eqb (mutexWaitTime collector0)
              (mutexLockCount collector0)) with false.
    change (Instrument_eqb (mutexLockCount collector0)
              (mutexLockCount collector0)) with true.
    simpl zsum. ring.
  - rewrite added_metrics by exact Hk.
    change (Instrument_eqb (gcCount collector0)
              (mutexLockCount collector0)) with false.
    rewrite andb_false_r. simpl zsum. ring.
Qed.

Lemma zsum_added_mutex_wait rs :
  forall p, handles_kept p ->
    zsum (added (mutexWaitTime collector0) (sdk_log (run rs p)))
    = zsum (added (mutexWaitTime collector0) (sdk_log p))
      + mutex_elapsed rs.
Proof.
  induction rs as [|r rs IH]; intros p Hk; [simpl; ring|].
  cbn [run]. rewrite IH by now apply handles_kept_step.
  rewrite added_step, zsum_app. destruct r; cbn [mutex_elapsed].
  - rewrite added_allocate. simpl zsum. ring.
  - rewrite added_spawn by exact Hk.
    change (Instrument_eqb (totalGoroutines collector0)
              (mutexWaitTime collector0)) with false.
    simpl zsum. ring.
  - rewrite added_mutex by exact Hk.
    change (Instrument_eqb (mutexWaitTime collector0)
              (mutexWaitTime collector0)) with true.
    change (Instrument_eqb (mutexLockCount collector0)
              (mutexWaitTime collector0)) with false.
    simpl zsum. ring.
  - rewrite added_metrics by exact Hk.
    change (Instrument_eqb (gcCount collector0)
              (mutexWaitTime collector0)) with false.
    rewrite andb_false_r. simpl zsum. ring.
Qed.

Lemma spawn_requests_nonneg rs : 0 <= spawn_requests rs.
Proof. induction rs as [|[ | | | ] rs IH]; cbn [spawn_requests]; lia. Qed.

Lemma mutex_requests_nonneg rs : 0 <= mutex_requests rs.
Proof. induction rs as [|[ | | | ] rs IH]; cbn [mutex_requests]; lia. Qed.

(** X1: whatever else is served in between, [go_goroutines_created_total]
    reads ten times the number of [/spawn-goroutines] requests, summed in
    [int64]; as long as that product fits, it is the product itself. *)
Theorem goroutines_created_total_counts_spawns (rs : list Request) :
  let total := counter_total (totalGoroutines collector0) (run rs process0) in
  total = wrap_int64 (10 * spawn_requests rs)
  /\ (10 * spawn_requests rs <= int64_max -> total = 10 * spawn_requests rs).
Proof.
  intros total.
  assert (H : total = wrap_int64 (10 * spawn_requests rs)).
  { subst total. unfold counter_total.
    rewrite counter_sum_zsum, zsum_added_goroutines
      by exact handles_kept_process0.
    reflexivity. }
  split; [exact H|]. intros Hle. rewrite H. apply wrap_int64_id.
  pose proof (spawn_requests_nonneg rs). unfold int64_min. lia.
Qed.

(** X2: [go_mutex_lock_total] reads the number of [/simulate-mutex]
    requests served, and [go_mutex_wait_seconds_total] the sum of the
    durations they measured, in nanoseconds and summed in [int64]. *)
Theorem mutex_counters_count_calls (rs : list Request) :
  let p := run rs process0 in
  counter_total (mutexLockCount collector0) p
  = wrap_int64 (mutex_requests rs)
  /\ (mutex_requests rs <= int64_max ->
      counter_total (mutexLockCount collector0) p = mutex_requests rs)
  /\ counter_total (mutexWaitTime collector0) p
     = wrap_int64 (mutex_elapsed rs)
  /\ (int64_min <= mutex_elapsed rs <= int64_max ->
      counter_total (mutexWaitTime collector0) p = mutex_elapsed rs).
Proof.
  intros p.
  assert (Hl : counter_total (mutexLockCount collector0) p
               = wrap_int64 (mutex_requests rs)).
  { subst p. unfold counter_total.
    rewrite counter_sum_zsum, zsum_added_mutex_lock
      by exact handles_kept_process0.
    reflexivity. }
  assert (Hw : counter_total (mutexWaitTime collector0) p
               = wrap_int64 (mutex_elapsed rs)).
  { subst p. unfold counter_total.
    rewrite counter_sum_zsum, zsum_added_mutex_wait
      by exact handles_kept_process0.
    reflexivity. }
  split; [exact Hl|]. split; [|split; [exact Hw|]].
  - intros Hle. rewrite Hl. apply wrap_int64_id.
    pose proof (mutex_requests_nonneg rs). unfold int64_min. lia.
  - intros Hr. rewrite Hw. now apply wrap_int64_id.
Qed.

(** ** Scrapes *)

Lemma pass_gc_events_none rt mc :
  (lastGC mc <? NumGC (ReadMemStats rt)) = false -> pass_gc_events rt mc = [].
Proof. intros H. unfold pass_gc_events. now rewrite H. Qed.

Lemma lastGC_after_pass rt p :
  (lastGC (collector (fst (handle (GetMetrics rt) p)))
   <? NumGC (ReadMemStats rt)) = false.
Proof.
  rewrite handle_collector_metrics.
  destruct (Z.ltb_spec (lastGC (collector p)) (NumGC (ReadMemStats rt)));
    cbn [lastGC set_lastPause set_lastGC]; apply Z.ltb_ge; lia.
Qed.

(** X3: a scrape that meets the same reading as the scrape before it adds
    to no counter, records nothing, leaves the collector as it is and
    publishes the same gauge values. *)
Theorem scrape_again_same_reading (rt : Runtime) (p : Process) :
  let p1 := fst (handle (GetMetrics rt) p) in
  (forall i, added i (events_of (GetMetrics rt) p1) = [])
  /\ (forall i, recorded i (events_of (GetMetrics rt) p1) = [])
  /\ collector (fst (handle (GetMetrics rt) p1)) = collector p1
  /\ body (snd (handle (GetMetrics rt) p1))
     = body (snd (handle (GetMetrics rt) p)).
Proof.
  intros p1. pose proof (lastGC_after_pass rt p) as Hno. fold p1 in Hno.
  assert (He : events_of (GetMetrics rt) p1
               = pass_observations rt (collector p1)).
  { rewrite events_of_metrics, pass_gc_events_none by exact Hno.
    apply app_nil_r. }
  split; [intros i; rewrite He; reflexivity|].
  split; [intros i; rewrite He; reflexivity|].
  split.
  - rewrite handle_collector_metrics, Hno. reflexivity.
  - rewrite !metrics_body. subst p1. rewrite handle_collector_metrics.
    destruct (lastGC (collector p) <? NumGC (ReadMemStats rt)); reflexivity.
Qed.

Lemma lastGC_run rs :
  forall p, lastGC (collector (run rs p)) = max_NumGC rs (lastGC (collector p)).
Proof.
  induction rs as [|r rs IH]; intros p; [reflexivity|].
  cbn [run]. rewrite IH. destruct r; cbn [max_NumGC]; try reflexivity.
  rewrite handle_collector_metrics.
  destruct (Z.ltb_spec (lastGC (collector p)) (NumGC (ReadMemStats rt)));
    cbn [lastGC set_lastPause set_lastGC].
  - now rewrite Z.max_r by lia.
  - now rewrite Z.max_l by lia.
Qed.

(** X4: after any sequence of requests [go_gc_cycles_total] and [lastGC]
    both equal the largest cycle count any scrape has read; a reading with a
    smaller count than one seen before changes neither. *)
Theorem gc_cycles_total_is_largest_seen (rs : list Request) :
  forallb wf_Request rs = true ->
  lastGC (collector (run rs process0)) = max_NumGC rs 0
  /\ counter_total (gcCount collector0) (run rs process0) = max_NumGC rs 0.
Proof.
  intros Hrs.
  pose proof (lastGC_run rs process0) as Hl.
  change (lastGC (collector process0)) with 0 in Hl.
  split; [exact Hl|].
  destruct (Inv_run rs process0 Hrs Inv_process0) as (_ & _ & _ & Ht).
  now rewrite Ht.
Qed.

Lemma gc_cycles_total_is_largest_seen_witness :
  forallb wf_Request
    [GetMetrics rt_two_gc; GetSimulateMutex 5; GetMetrics rt_one_gc] = true
  /\ counter_total (gcCount collector0)
       (run [GetMetrics rt_two_gc; GetSimulateMutex 5; GetMetrics rt_one_gc]
          process0) = 2.
Proof.
  split; [reflexivity|].
  exact (proj2 (gc_cycles_total_is_largest_seen
                  [GetMetrics rt_two_gc; GetSimulateMutex 5;
                   GetMetrics rt_one_gc] eq_refl)).
Defined.

(** X5: when the cycle count has risen but the last-GC timestamp is not
    later than the stored one, the pass adds the cycle delta, records no
    duration, and still overwrites [lastPause] with the snapshot's
    timestamp. *)
Theorem timestamp_overwritten_without_record (rs : list Request) (rt : Runtime) :
  forallb wf_Request rs = true ->
  wf_Runtime rt = true ->
  lastGC (collector (run rs process0)) < NumGC (ReadMemStats rt) ->
  LastGC (ReadMemStats rt) <= lastPause (collector (run rs process0)) ->
  let p := run rs process0 in
  added (gcCount collector0) (events_of (GetMetrics rt) p)
  = [NumGC (ReadMemStats rt) - lastGC (collector p)]
  /\ recorded (gcPauseDuration collector0) (events_of (GetMetrics rt) p) = []
  /\ lastPause (collector (fst (handle (GetMetrics rt) p)))
     = LastGC (ReadMemStats rt).
Proof.
  intros Hrs Hrt Hgc Hts p.
  destruct (Inv_run rs process0 Hrs Inv_process0) as (Hk & Hg & _ & _).
  fold p in Hk, Hg, Hgc, Hts. apply is_uint32_range in Hg.
  pose proof (wf_Runtime_NumGC rt Hrt) as Hn.
  apply Z.ltb_lt in Hgc. apply Z.ltb_ge in Hts.
  split; [|split].
  - rewrite added_metrics, Hgc by exact Hk.
    change (Instrument_eqb (gcCount collector0) (gcCount collector0))
      with true.
    cbn [andb]. apply Z.ltb_lt in Hgc. now rewrite gc_delta_exact by lia.
  - rewrite recorded_metrics, Hgc, Hts by exact Hk. reflexivity.
  - rewrite handle_collector_metrics, Hgc. reflexivity.
Qed.

Lemma timestamp_overwritten_without_record_witness :
  lastPause (collector (run [GetMetrics rt_one_gc; GetMetrics rt_two_gc]
                          process0)) = 1700000002500000000
  /\ lastPause
       (collector
          (fst (handle (GetMetrics rt_clock_back)
                  (run [GetMetrics rt_one_gc; GetMetrics rt_two_gc]
                     process0)))) = 1700000001000000000.
Proof.
  split; [reflexivity|].
  assert (Hts : LastGC (ReadMemStats rt_clock_back)
                <= lastPause
                     (collector (run [GetMetrics rt_one_gc;
                                      GetMetrics rt_two_gc] process0)))
    by (vm_compute; discriminate).
  exact (proj2 (proj2 (timestamp_overwritten_without_record
                         [GetMetrics rt_one_gc; GetMetrics rt_two_gc]
                         rt_clock_back eq_refl eq_refl eq_refl Hts))).
Defined.



Lemma recorded_step i r p :
  recorded i (sdk_log (fst (handle r p)))
  = recorded i (sdk_log p) ++ recorded i (events_of r p).
Proof. now rewrite handle_log, recorded_app. Qed.

Lemma added_gcCount_other r p :
  handles_kept p ->
  (forall rt, r <> GetMetrics rt) ->
  added (gcCount collector0) (events_of r p) = [].
Proof.
  intros Hk H. destruct r.
  - reflexivity.
  - now rewrite added_spawn.
  - now rewrite added_mutex.
  - now elim (H rt).
Qed.

Lemma records_adds_scrapes rs :
  forall p, handles_kept p ->
    exists a b : nat,
      length (added (gcCount collector0) (sdk_log (run rs p)))
      = (length (added (gcCount collector0) (sdk_log p)) + a)%nat
      /\ length (recorded (gcPauseDuration collector0) (sdk_log (run rs p)))
         = (length (recorded (gcPauseDuration collector0) (sdk_log p)) + b)%nat
      /\ (b <= a <= scrapes rs)%nat.
Proof.
  induction rs as [|r rs IH]; intros p Hk.
  - exists O, O. simpl. lia.
  - cbn [run].
    destruct (IH _ (handles_kept_step r p Hk)) as (a & b & Ha & Hb & Hab).
    rewrite Ha, Hb, added_step, recorded_step, !length_app.
    destruct r.
    + exists a, b. rewrite added_gcCount_other, recorded_other
        by (assumption || discriminate).
      simpl. lia.
    + exists a, b. rewrite added_gcCount_other, recorded_other
        by (assumption || discriminate).
      simpl. lia.
    + exists a, b. rewrite added_gcCount_other, recorded_other
        by (assumption || discriminate).
      simpl. lia.
    + rewrite added_metrics, recorded_metrics by exact Hk.
      change (Instrument_eqb (gcCount collector0) (gcCount collector0))
        with true.
      change (Instrument_eqb (gcPauseDuration collector0)
                (gcPauseDuration collector0)) with true.
      rewrite !andb_true_r. cbn [scrapes].
      destruct (lastGC (collector p) <? NumGC (ReadMemStats rt));
        destruct (lastPause (collector p) <? LastGC (ReadMemStats rt));
        cbn [andb length].
      * exists (S a), (S b). lia.
      * exists (S a), b. lia.
      * exists a, b. lia.
      * exists a, b. lia.
Qed.

(** X7: over any sequence of requests the histogram holds at most as many
    values as there were additions to [go_gc_cycles_total], and those are at
    most as many as the scrapes served. *)
Theorem records_at_most_adds_at_most_scrapes (rs : list Request) :
  let log := sdk_log (run rs process0) in
  (length (recorded (gcPauseDuration collector0) log)
   <= length (added (gcCount collector0) log)
   <= scrapes rs)%nat.
Proof.
  intros log.
  destruct (records_adds_scrapes rs process0 handles_kept_process0)
    as (a & b & Ha & Hb & Hab).
  subst log. rewrite Ha, Hb. simpl. lia.
Qed.

(** X8: the three demo routes leave the collector's fields alone, observe
    no gauge, record nothing and add nothing to [go_gc_cycles_total],
    whatever has been served before. *)
Theorem demo_routes_leave_gc_state (rs : list Request) (elapsed : Z) :
  let p := run rs process0 in
  Forall
    (fun r =>
       collector (fst (handle r p)) = collector p
       /\ observations_of (events_of r p) = []
       /\ (forall i, recorded i (events_of r p) = [])
       /\ counter_total (gcCount collector0) (fst (handle r p))
          = counter_total (gcCount collector0) p)
    [GetAllocateMemory; GetSpawnGoroutines; GetSimulateMutex elapsed].
Proof.
  intros p.
  pose proof (handles_kept_run rs process0 handles_kept_process0) as Hk.
  fold p in Hk.
  assert (H : forall r, (forall rt, r <> GetMetrics rt) ->
            collector (fst (handle r p)) = collector p
            /\ observations_of (events_of r p) = []
            /\ (forall i, recorded i (events_of r p) = [])
            /\ counter_total (gcCount collector0) (fst (handle r p))
               = counter_total (gcCount collector0) p).
  { intros r Hr. split; [now apply handle_collector_other|].
    split; [destruct r; try reflexivity; now elim (Hr rt)|].
    split; [intros i; now apply recorded_other|].
    rewrite counter_total_step, added_gcCount_other by assumption.
    reflexivity. }
  repeat (apply Forall_cons; [apply H; discriminate|]). apply Forall_nil.
Qed.

(** X9: what a scrape publishes depends on the runtime reading alone, not
    on the requests served before it. *)
Theorem gauges_independent_of_history (rs rs' : list Request) (rt : Runtime) :
  body (snd (handle (GetMetrics rt) (run rs process0)))
  = body (snd (handle (GetMetrics rt) (run rs' process0))).
Proof.
  rewrite !metrics_body.
  pose proof (handles_kept_run rs process0 handles_kept_process0) as H.
  pose proof (handles_kept_run rs' process0 handles_kept_process0) as H'.
  unfold handles_kept in H, H'. rewrite H, H'. reflexivity.
Qed.

Lemma wf_Runtime_fields rt :
  wf_Runtime rt = true ->
  Forall (fun z => 0 <= z) (gauge_fields (ReadMemStats rt))
  /\ int64_min <= NumGoroutine rt <= int64_max
  /\ int64_min <= NumCPU rt <= int64_max.
Proof.
  unfold wf_Runtime, wf_MemStats. rewrite !andb_true_iff.
  rewrite !is_uint64_range, !is_int64_range. intros H.
  split; [|tauto]. unfold gauge_fields.
  repeat (apply Forall_cons; [tauto|]). apply Forall_nil.
Qed.

(** X10: for a well-formed reading whose [uint64] fields are all at most
    2^63 - 1, a scrape publishes, in this order, the twelve gauges with
    exactly the values read: nine fields of [MemStats], the goroutine count,
    the GC CPU fraction, and the CPU count under [go_threads]. *)
Theorem scrape_publishes_reading (rs : list Request) (rt : Runtime) :
  wf_Runtime rt = true ->
  Forall (fun z => z <= int64_max) (gauge_fields (ReadMemStats rt)) ->
  let stats := ReadMemStats rt in
  let c := collector0 in
  body (snd (handle (GetMetrics rt) (run rs process0)))
  = Collected
      [ (heapAlloc c, Int64 (HeapAlloc stats));
        (heapIdle c, Int64 (HeapIdle stats));
        (heapInUse c, Int64 (HeapInuse stats));
        (heapObjects c, Int64 (HeapObjects stats));
        (heapReleased c, Int64 (HeapReleased stats));
        (heapSys c, Int64 (HeapSys stats));
        (activeGoroutines c, Int64 (NumGoroutine rt));
        (gcCPUFraction c, Float64 (GCCPUFraction stats));
        (gcSys c, Int64 (GCSys stats));
        (osThreads c, Int64 (NumCPU rt));
        (stackInUse c, Int64 (StackInuse stats));
        (stackSys c, Int64 (StackSys stats)) ].
Proof.
  intros Hrt Hfit stats c.
  destruct (wf_Runtime_fields rt Hrt) as (Hpos & Hg & Hc).
  rewrite metrics_body.
  pose proof (handles_kept_run rs process0 handles_kept_process0) as H.
  unfold handles_kept in H. rewrite H.
  change (observations_of (pass_observations rt (with_state _ _)))
    with (observations_of (pass_observations rt collector0)).
  unfold pass_observations. cbn [observations_of]. fold stats. fold c.
  unfold gauge_fields in Hpos, Hfit. fold stats in Hpos, Hfit.
  repeat match goal with
         | H0 : Forall _ (_ :: _) |- _ => inversion_clear H0
         end.
  unfold int64_of_uint64, int64_of_int.
  rewrite !wrap_int64_id by (unfold int64_min in *; lia).
  reflexivity.
Qed.

Lemma scrape_publishes_reading_witness :
  wf_Runtime rt_one_gc = true
  /\ published (osThreads collector0)
       (snd (handle (GetMetrics rt_one_gc) (run [GetSpawnGoroutines] process0)))
     = [Int64 4].
Proof.
  split; [reflexivity|].
  assert (Hfit : Forall (fun z => z <= int64_max)
                   (gauge_fields (ReadMemStats rt_one_gc)))
    by (repeat constructor; vm_compute; discriminate).
  exact (f_equal
           (fun b => match b with
                     | Collected obs => observed (osThreads collector0) obs
                     | Json _ => []
                     end)
           (scrape_publishes_reading [GetSpawnGoroutines] rt_one_gc
              eq_refl Hfit)).
Defined.

(** ** Startup, for every backend *)

Lemma create_all_prefix accept l :
  forall m,
    exists pre post,
      l = pre ++ post
      /\ fst (create_all accept l m) = add_instruments pre m
      /\ (snd (create_all accept l m) = None -> post = []).
Proof.
  induction l as [|i l IH]; intros m.
  - exists [], []. repeat split.
  - cbn [create_all]. destruct (accept m i).
    + destruct (IH (add_instrument i m)) as (pre & post & -> & Hm & Hn).
      exists (i :: pre), post. repeat split; assumption.
    + exists [], (i :: l). repeat split. discriminate.
Qed.

Lemma create_all_in_turn accept l :
  forall m,
    accepted_in_turn accept m l = true ->
    create_all accept l m = (add_instruments l m, None).
Proof.
  induction l as [|i l IH]; intros m H; [reflexivity|].
  cbn [accepted_in_turn] in H. apply andb_true_iff in H as [Hi Hl].
  cbn [create_all]. rewrite Hi. now apply IH.
Qed.

Lemma intended_names_distinct : NoDup (map inst_name intended).
Proof.
  rewrite intended_eq. cbv [map inst_name collector0 heapAlloc heapIdle
    heapInUse heapObjects heapReleased heapSys gcPauseDuration gcCount
    gcForced activeGoroutines totalGoroutines gcCPUFraction gcSys
    goroutineExecTime gcTime systemTime osThreads stackInUse stackSys
    mutexWaitTime mutexLockCount].
  repeat (apply NoDup_cons;
          [cbv [In]; intros H;
           repeat (destruct H as [H|H]; [discriminate H|]); exact H|]).
  apply NoDup_nil.
Qed.

Lemma NoDup_prefix {A} (l1 l2 : list A) : NoDup (l1 ++ l2) -> NoDup l1.
Proof.
  induction l1 as [|a l1 IH]; intros H; [constructor|].
  inversion H as [|x l Hn Hd]; subst. constructor.
  - intros Hin. apply Hn, in_or_app. now left.
  - now apply IH.
Qed.

(** X11: whatever the backend accepts or rejects, the meter the
    constructor leaves behind holds a prefix of the 21 intended instruments,
    in order and under pairwise distinct names, and the callback is on it
    only when all 21 are. *)
Theorem constructor_leaves_prefix
  (accept : Meter -> Instrument -> bool)
  (accept_callback : Meter -> list Instrument -> bool) :
  let m := fst (newMetricsCollector accept accept_callback empty_meter) in
  exists post,
    intended = instruments m ++ post
    /\ NoDup (map inst_name (instruments m))
    /\ (callbacks m = []
        \/ (callbacks m = [observable] /\ post = [])).
Proof.
  intros m. subst m. rewrite newMetricsCollector_create_all.
  destruct (create_all_prefix accept intended empty_meter)
    as (pre & post & Hsplit & Hm & Hn).
  destruct (add_instruments_fields pre empty_meter) as [Hi Hc].
  assert (Hd : NoDup (map inst_name pre)).
  { pose proof intended_names_distinct as H.
    rewrite Hsplit, map_app in H. now apply NoDup_prefix in H. }
  destruct (create_all accept intended empty_meter) as [m' [e|]].
  - cbn [fst] in *. subst m'. exists post. rewrite Hi, Hc.
    repeat split; auto.
  - cbn [fst snd] in *. subst m'. specialize (Hn eq_refl). subst post.
    destruct (accept_callback _ observable); cbn [fst];
      exists []; unfold add_callback; cbn [instruments callbacks];
      rewrite ?Hi, ?Hc; repeat split; auto.
Qed.

(** X12: when every instrument is accepted but the callback is rejected,
    the constructor returns the collector together with the error, all 21
    instruments stay on the meter without a callback, and [main] ends in
    [log.Fatal]. *)
Theorem callback_rejection_is_fatal
  (accept : Meter -> Instrument -> bool)
  (accept_callback : Meter -> list Instrument -> bool)
  (prometheus_New Run : option error) :
  accepted_in_turn accept empty_meter intended = true ->
  accept_callback (add_instruments intended empty_meter) observable = false ->
  newMetricsCollector accept accept_callback empty_meter
  = (add_instruments intended empty_meter,
     (Some collector0, Some ErrCallback))
  /\ instruments (add_instruments intended empty_meter) = intended
  /\ callbacks (add_instruments intended empty_meter) = []
  /\ main accept accept_callback prometheus_New Run
     = Fatal match prometheus_New with
             | Some e => e
             | None => ErrCallback
             end.
Proof.
  intros Hacc Hcb.
  assert (Hnew : newMetricsCollector accept accept_callback empty_meter
                 = (add_instruments intended empty_meter,
                    (Some collector0, Some ErrCallback))).
  { rewrite newMetricsCollector_create_all.
    rewrite (create_all_in_turn accept intended empty_meter Hacc).
    now rewrite Hcb. }
  destruct (add_instruments_fields intended empty_meter) as [Hi Hc].
  split; [exact Hnew|]. split; [exact Hi|]. split; [exact Hc|].
  unfold main. destruct prometheus_New; [reflexivity|]. now rewrite Hnew.
Qed.

Lemma callback_rejection_is_fatal_witness :
  accepted_in_turn accept_all empty_meter intended = true
  /\ main accept_all reject_callbacks None None = Fatal ErrCallback.
Proof.
  split; [reflexivity|].
  exact (proj2 (proj2 (proj2
    (callback_rejection_is_fatal accept_all reject_callbacks None None
       eq_refl eq_refl)))).
Defined.

Lemma meter0_eq :
  add_callback observable (add_instruments intended empty_meter) = meter0.
Proof. reflexivity. Qed.

(** X13: [main] reaches the server exactly when the exporter is created,
    every instrument is accepted in its turn, the callback is registered
    and the server starts; in every other case it ends in [log.Fatal], with
    the exporter's error whenever there is one. *)
Theorem main_serves_iff
  (accept : Meter -> Instrument -> bool)
  (accept_callback : Meter -> list Instrument -> bool)
  (prometheus_New Run : option error) :
  (main accept accept_callback prometheus_New Run = Serving meter0 process0
   <-> prometheus_New = None
       /\ accepted_in_turn accept empty_meter intended = true
       /\ accept_callback (add_instruments intended empty_meter) observable
          = true
       /\ Run = None)
  /\ (main accept accept_callback prometheus_New Run = Serving meter0 process0
      \/ exists e, main accept accept_callback prometheus_New Run = Fatal e)
  /\ (forall e, prometheus_New = Some e ->
        main accept accept_callback prometheus_New Run = Fatal e).
Proof.
  assert (Hiff :
    main accept accept_callback prometheus_New Run = Serving meter0 process0
    <-> prometheus_New = None
        /\ accepted_in_turn accept empty_meter intended = true
        /\ accept_callback (add_instruments intended empty_meter) observable
           = true
        /\ Run = None).
  { split.
    - unfold main. destruct prometheus_New; [discriminate|].
      rewrite newMetricsCollector_create_all.
      destruct (create_all accept intended empty_meter) as [m' [e|]] eqn:Hc;
        [discriminate|].
      apply create_all_accepted in Hc as [-> Ha].
      destruct (accept_callback _ observable); [|discriminate].
      destruct Run; [discriminate|]. intros _. repeat split. exact Ha.
    - intros (-> & Ha & Hcb & ->). unfold main.
      rewrite newMetricsCollector_create_all.
      rewrite (create_all_in_turn accept intended empty_meter Ha), Hcb.
      now rewrite meter0_eq. }
  split; [exact Hiff|]. split.
  - unfold main. destruct prometheus_New; [right; eauto|].
    rewrite newMetricsCollector_create_all.
    destruct (create_all accept intended empty_meter) as [m' [e|]] eqn:Hc;
      [right; eauto|].
    apply create_all_accepted in Hc as [-> Ha].
    destruct (accept_callback _ observable); [|right; eauto].
    destruct Run; [right; eauto|]. left. now rewrite meter0_eq.
  - intros e ->. reflexivity.
Qed.
